(** * UK salary / nursery calculator: the calculation engine of [src/app/page.tsx]

    The engine is the pair of bracket walks [calculateTax] and [calculateNI]
    and the [calculations] closure of the [SalaryCalculator] component.

    Numeric model.  A JavaScript [number] that holds a finite value is a
    rational [Q]: arithmetic is exact, and results are compared with [==]
    ([Qeq]) unless both sides are the very same fraction.  Binary64 rounding
    is outside this model; module [Binary64] below runs the same code on
    primitive binary64 floats, for the figures that depend on the rounding.
    The only non-finite value the engine itself ever
    writes is [Number.POSITIVE_INFINITY], the [max] of the last bracket of
    each table; it is kept as a constructor of [number], together with the two
    operations the code applies to it ([bracket.max - bracket.min] and
    [Math.min(remainingIncome, _)]). *)

From Stdlib Require Import QArith Qminmax Lqa List Bool.
From Stdlib Require Import String Lia PrimFloat.
Import ListNotations.

Local Open Scope Q_scope.

(* In [float_scope] a decimal literal that is not a binary64 value stands for
   the nearest one, as in the source; the rounding is meant, so it is not
   reported. *)
Set Warnings "-inexact-float".

(** ** Numbers *)

Inductive number : Type :=
| Finite (q : Q)
| POSITIVE_INFINITY.

(** [a - b] for a possibly infinite [a] and a finite [b]. *)
Definition number_sub (a : number) (b : Q) : number :=
  match a with
  | Finite q => Finite (q - b)
  | POSITIVE_INFINITY => POSITIVE_INFINITY
  end.

(** [Math.min(x, y)] for a finite [x] and a possibly infinite [y]. *)
Definition Math_min (x : Q) (y : number) : Q :=
  match y with
  | Finite q => Qmin x q
  | POSITIVE_INFINITY => x
  end.

(** [Math.max(x, y)] on finite numbers. *)
Definition Math_max (x y : Q) : Q := Qmax x y.

(** [x < y] and [x > y] as the booleans the code branches on. *)
Definition Qltb (x y : Q) : bool := negb (Qle_bool y x).
Definition Qgtb (x y : Q) : bool := negb (Qle_bool x y).

(** ** Tables and constants (page.tsx, lines 11-28) *)

Record Bracket : Type := mkBracket { min : Q; max : number; rate : Q }.

Definition TAX_BRACKETS : list Bracket :=
  [ mkBracket 0 (Finite 12570) 0;                 (* Personal allowance *)
    mkBracket 12570 (Finite 50270) 0.2;           (* Basic rate *)
    mkBracket 50270 (Finite 125140) 0.4;          (* Higher rate *)
    mkBracket 125140 POSITIVE_INFINITY 0.45 ].    (* Additional rate *)

Definition NI_BRACKETS : list Bracket :=
  [ mkBracket 0 (Finite 12570) 0;
    mkBracket 12570 (Finite 50270) 0.12;
    mkBracket 50270 POSITIVE_INFINITY 0.02 ].

Definition PENSION_ANNUAL_ALLOWANCE : Q := 60000.
Definition CHILDCARE_FREE_HOURS_THRESHOLD : Q := 100000.
Definition FREE_CHILDCARE_HOURS_PER_WEEK_UNDER_100K : Q := 30.
Definition FREE_CHILDCARE_HOURS_PER_WEEK_3_4_YEARS : Q := 15.
Definition SCHOOL_WEEKS_PER_YEAR : Q := 38.

(** ** [for (const bracket of ...) { if (...) break; ... }]

    The loop body maps the loop variables to their next values, or to [None]
    when it executes [break]. *)

Fixpoint forOf {B S : Type} (body : B -> S -> option S) (l : list B) (s : S) : S :=
  match l with
  | [] => s
  | b :: rest =>
      match body b s with
      | None => s
      | Some s' => forOf body rest s'
      end
  end.

(** ** calculateTax (page.tsx, lines 30-59) *)

(** Lines 34-39: the tapered personal allowance. *)
Definition personalAllowance (taxableIncome : Q) : Q :=
  let personalAllowance := 12570 in
  if Qgtb taxableIncome 100000 then
    let reduction := Math_min personalAllowance (Finite ((taxableIncome - 100000) / 2)) in
    personalAllowance - reduction
  else personalAllowance.

(** Lines 42-55: one iteration, on the loop variables [(tax, remainingIncome)]. *)
Definition taxBody (taxableIncome personalAllowance : Q)
    (bracket : Bracket) (st : Q * Q) : option (Q * Q) :=
  let '(tax, remainingIncome) := st in
  if Qle_bool remainingIncome 0 then None
  else
    let taxableInBracket :=
      Math_min remainingIncome (number_sub (max bracket) (min bracket)) in
    let adjustedMin :=
      if Qeq_bool (min bracket) 0 then 0
      else Math_max (min bracket) (taxableIncome - remainingIncome) in
    let tax :=
      if Qeq_bool (min bracket) 0 then
        (* Personal allowance bracket *)
        let allowanceUsed := Math_min taxableInBracket (Finite personalAllowance) in
        tax + Math_max 0 (taxableInBracket - allowanceUsed) * rate bracket
      else tax + taxableInBracket * rate bracket in
    Some (tax, remainingIncome - taxableInBracket).

(** The walk for a given allowance, returning both loop variables. *)
Definition taxWalk (taxableIncome personalAllowance : Q)
    (brackets : list Bracket) : Q * Q :=
  forOf (taxBody taxableIncome personalAllowance) brackets (0, taxableIncome).

Definition calculateTax (taxableIncome : Q) : Q :=
  fst (taxWalk taxableIncome (personalAllowance taxableIncome) TAX_BRACKETS).

(** The same walk with the allowance held at 12,570 whatever the income. *)
Definition calculateTax_fixed_allowance (taxableIncome : Q) : Q :=
  fst (taxWalk taxableIncome 12570 TAX_BRACKETS).

(** The loop variables [(tax, remainingIncome)] of [calculateTax] once the
    first [k] brackets have been visited. *)
Definition walkedThrough (taxableIncome : Q) (k : nat) : Q * Q :=
  taxWalk taxableIncome (personalAllowance taxableIncome) (firstn k TAX_BRACKETS).

(** ** calculateNI (page.tsx, lines 61-74) *)

Definition niBody (bracket : Bracket) (st : Q * Q) : option (Q * Q) :=
  let '(ni, remainingIncome) := st in
  if Qle_bool remainingIncome 0 then None
  else
    let incomeInBracket :=
      Math_min remainingIncome (number_sub (max bracket) (min bracket)) in
    Some (ni + incomeInBracket * rate bracket, remainingIncome - incomeInBracket).

Definition calculateNI (income : Q) : Q :=
  fst (forOf niBody NI_BRACKETS (0, income)).

(** ** The component state and the [calculations] memo (page.tsx, lines 77-140) *)

Module State.

Record t : Type := mk {
  salary : Q;
  bonus : Q;
  pensionContributionPercent : Q;
  employerPensionPercent : Q;
  electricCarSacrifice : Q;
  bikeToWorkSacrifice : Q;
  nurseryCostPerHour : Q;
  nurseryHoursPerWeek : Q;
  children9MonthsTo3Years : Q;
  children3To4Years : Q
}.

(** The values passed to [useState]. *)
Definition initial : t := mk 50000 0 5 3 0 0 12 40 1 0.

End State.

Record Calculations : Type := mkCalculations {
  grossIncome : Q;
  taxableIncome : Q;
  employeePensionContribution : Q;
  employerPensionContribution : Q;
  totalPensionContribution : Q;
  tax : Q;
  nationalInsurance : Q;
  totalSalarySacrifice : Q;
  electricCarSacrifice : Q;
  bikeToWorkSacrifice : Q;
  nurseryAnnualCost : Q;
  freeHours9MonthsTo3Years : Q;
  freeHours3To4Years : Q;
  paidHours9MonthsTo3Years : Q;
  paidHours3To4Years : Q;
  cost9MonthsTo3Years : Q;
  cost3To4Years : Q;
  isUnder100k : bool;
  takeHome : Q
}.

Definition calculations (s : State.t) : Calculations :=
  let grossIncome := State.salary s + State.bonus s in
  let totalSalarySacrifice :=
    State.electricCarSacrifice s + State.bikeToWorkSacrifice s in
  let employeePensionContribution :=
    (grossIncome * State.pensionContributionPercent s) / 100 in
  let employerPensionContribution :=
    (grossIncome * State.employerPensionPercent s) / 100 in
  let totalPensionContribution :=
    employeePensionContribution + employerPensionContribution in
  let taxableIncome :=
    grossIncome - employeePensionContribution - totalSalarySacrifice in
  let tax := calculateTax taxableIncome in
  let nationalInsurance :=
    calculateNI (grossIncome - employeePensionContribution - totalSalarySacrifice) in
  (* Nursery calculations for different age groups *)
  let isUnder100k := Qltb taxableIncome CHILDCARE_FREE_HOURS_THRESHOLD in
  (* Children 9 months to 3 years: 30 hours free if under 100k, otherwise 0 *)
  let freeHours9MonthsTo3Years :=
    if isUnder100k then FREE_CHILDCARE_HOURS_PER_WEEK_UNDER_100K else 0 in
  let paidHours9MonthsTo3Years :=
    Math_max 0 (State.nurseryHoursPerWeek s - freeHours9MonthsTo3Years) in
  let cost9MonthsTo3Years :=
    paidHours9MonthsTo3Years * State.nurseryCostPerHour s
    * SCHOOL_WEEKS_PER_YEAR * State.children9MonthsTo3Years s in
  (* Children 3-4 years: 15 hours free always, 30 hours if under 100k *)
  let freeHours3To4Years :=
    if isUnder100k then FREE_CHILDCARE_HOURS_PER_WEEK_UNDER_100K
    else FREE_CHILDCARE_HOURS_PER_WEEK_3_4_YEARS in
  let paidHours3To4Years :=
    Math_max 0 (State.nurseryHoursPerWeek s - freeHours3To4Years) in
  let cost3To4Years :=
    paidHours3To4Years * State.nurseryCostPerHour s
    * SCHOOL_WEEKS_PER_YEAR * State.children3To4Years s in
  let nurseryAnnualCost := cost9MonthsTo3Years + cost3To4Years in
  let takeHome :=
    grossIncome - employeePensionContribution - tax - nationalInsurance
    - totalSalarySacrifice - nurseryAnnualCost in
  {| grossIncome := grossIncome;
     taxableIncome := taxableIncome;
     employeePensionContribution := employeePensionContribution;
     employerPensionContribution := employerPensionContribution;
     totalPensionContribution := totalPensionContribution;
     tax := tax;
     nationalInsurance := nationalInsurance;
     totalSalarySacrifice := totalSalarySacrifice;
     electricCarSacrifice := State.electricCarSacrifice s;
     bikeToWorkSacrifice := State.bikeToWorkSacrifice s;
     nurseryAnnualCost := nurseryAnnualCost;
     freeHours9MonthsTo3Years := freeHours9MonthsTo3Years;
     freeHours3To4Years := freeHours3To4Years;
     paidHours9MonthsTo3Years := paidHours9MonthsTo3Years;
     paidHours3To4Years := paidHours3To4Years;
     cost9MonthsTo3Years := cost9MonthsTo3Years;
     cost3To4Years := cost3To4Years;
     isUnder100k := isUnder100k;
     takeHome := takeHome |}.

(** ** The engine on binary64 numbers

    The same text of page.tsx, lines 11-140, with a [number] read as what it
    is at run time: an IEEE 754 binary64 float, every operation rounded to
    nearest.  Literals are read as JavaScript reads them, to the nearest
    binary64 value. *)

Module Binary64.

Local Open Scope float_scope.

(** [Math.min] and [Math.max]: NaN if an argument is NaN, and -0 below +0. *)
Definition Math_min (x y : float) : float :=
  if is_nan x || is_nan y then nan
  else if x <? y then x
  else if y <? x then y
  else if get_sign x then x else y.

Definition Math_max (x y : float) : float :=
  if is_nan x || is_nan y then nan
  else if x <? y then y
  else if y <? x then x
  else if get_sign x then y else x.

Record Bracket : Type := mkBracket { min : float; max : float; rate : float }.

Definition TAX_BRACKETS : list Bracket :=
  [ mkBracket 0 12570 0;
    mkBracket 12570 50270 0.2;
    mkBracket 50270 125140 0.4;
    mkBracket 125140 infinity 0.45 ].

Definition NI_BRACKETS : list Bracket :=
  [ mkBracket 0 12570 0;
    mkBracket 12570 50270 0.12;
    mkBracket 50270 infinity 0.02 ].

Definition CHILDCARE_FREE_HOURS_THRESHOLD : float := 100000.
Definition FREE_CHILDCARE_HOURS_PER_WEEK_UNDER_100K : float := 30.
Definition FREE_CHILDCARE_HOURS_PER_WEEK_3_4_YEARS : float := 15.
Definition SCHOOL_WEEKS_PER_YEAR : float := 38.

Definition personalAllowance (taxableIncome : float) : float :=
  let personalAllowance := 12570 in
  if 100000 <? taxableIncome then
    let reduction := Math_min personalAllowance ((taxableIncome - 100000) / 2) in
    personalAllowance - reduction
  else personalAllowance.

Definition taxBody (taxableIncome personalAllowance : float)
    (bracket : Bracket) (st : float * float) : option (float * float) :=
  let '(tax, remainingIncome) := st in
  if remainingIncome <=? 0 then None
  else
    let taxableInBracket :=
      Math_min remainingIncome (max bracket - min bracket) in
    let adjustedMin :=
      if min bracket =? 0 then 0
      else Math_max (min bracket) (taxableIncome - remainingIncome) in
    let tax :=
      if min bracket =? 0 then
        let allowanceUsed := Math_min taxableInBracket personalAllowance in
        tax + Math_max 0 (taxableInBracket - allowanceUsed) * rate bracket
      else tax + taxableInBracket * rate bracket in
    Some (tax, remainingIncome - taxableInBracket).

Definition calculateTax (taxableIncome : float) : float :=
  fst (forOf (taxBody taxableIncome (personalAllowance taxableIncome))
         TAX_BRACKETS (0, taxableIncome)).

Definition niBody (bracket : Bracket) (st : float * float)
    : option (float * float) :=
  let '(ni, remainingIncome) := st in
  if remainingIncome <=? 0 then None
  else
    let incomeInBracket :=
      Math_min remainingIncome (max bracket - min bracket) in
    Some (ni + incomeInBracket * rate bracket, remainingIncome - incomeInBracket).

Definition calculateNI (income : float) : float :=
  fst (forOf niBody NI_BRACKETS (0, income)).

Module State.

Record t : Type := mk {
  salary : float;
  bonus : float;
  pensionContributionPercent : float;
  employerPensionPercent : float;
  electricCarSacrifice : float;
  bikeToWorkSacrifice : float;
  nurseryCostPerHour : float;
  nurseryHoursPerWeek : float;
  children9MonthsTo3Years : float;
  children3To4Years : float
}.

End State.

Record Calculations : Type := mkCalculations {
  grossIncome : float;
  taxableIncome : float;
  employeePensionContribution : float;
  employerPensionContribution : float;
  totalPensionContribution : float;
  tax : float;
  nationalInsurance : float;
  totalSalarySacrifice : float;
  electricCarSacrifice : float;
  bikeToWorkSacrifice : float;
  nurseryAnnualCost : float;
  freeHours9MonthsTo3Years : float;
  freeHours3To4Years : float;
  paidHours9MonthsTo3Years : float;
  paidHours3To4Years : float;
  cost9MonthsTo3Years : float;
  cost3To4Years : float;
  isUnder100k : bool;
  takeHome : float
}.

Definition calculations (s : State.t) : Calculations :=
  let grossIncome := State.salary s + State.bonus s in
  let totalSalarySacrifice :=
    State.electricCarSacrifice s + State.bikeToWorkSacrifice s in
  let employeePensionContribution :=
    (grossIncome * State.pensionContributionPercent s) / 100 in
  let employerPensionContribution :=
    (grossIncome * State.employerPensionPercent s) / 100 in
  let totalPensionContribution :=
    employeePensionContribution + employerPensionContribution in
  let taxableIncome :=
    grossIncome - employeePensionContribution - totalSalarySacrifice in
  let tax := calculateTax taxableIncome in
  let nationalInsurance :=
    calculateNI (grossIncome - employeePensionContribution - totalSalarySacrifice) in
  let isUnder100k := taxableIncome <? CHILDCARE_FREE_HOURS_THRESHOLD in
  let freeHours9MonthsTo3Years :=
    if isUnder100k then FREE_CHILDCARE_HOURS_PER_WEEK_UNDER_100K else 0 in
  let paidHours9MonthsTo3Years :=
    Math_max 0 (State.nurseryHoursPerWeek s - freeHours9MonthsTo3Years) in
  let cost9MonthsTo3Years :=
    paidHours9MonthsTo3Years * State.nurseryCostPerHour s
    * SCHOOL_WEEKS_PER_YEAR * State.children9MonthsTo3Years s in
  let freeHours3To4Years :=
    if isUnder100k then FREE_CHILDCARE_HOURS_PER_WEEK_UNDER_100K
    else FREE_CHILDCARE_HOURS_PER_WEEK_3_4_YEARS in
  let paidHours3To4Years :=
    Math_max 0 (State.nurseryHoursPerWeek s - freeHours3To4Years) in
  let cost3To4Years :=
    paidHours3To4Years * State.nurseryCostPerHour s
    * SCHOOL_WEEKS_PER_YEAR * State.children3To4Years s in
  let nurseryAnnualCost := cost9MonthsTo3Years + cost3To4Years in
  let takeHome :=
    grossIncome - employeePensionContribution - tax - nationalInsurance
    - totalSalarySacrifice - nurseryAnnualCost in
  {| grossIncome := grossIncome;
     taxableIncome := taxableIncome;
     employeePensionContribution := employeePensionContribution;
     employerPensionContribution := employerPensionContribution;
     totalPensionContribution := totalPensionContribution;
     tax := tax;
     nationalInsurance := nationalInsurance;
     totalSalarySacrifice := totalSalarySacrifice;
     electricCarSacrifice := State.electricCarSacrifice s;
     bikeToWorkSacrifice := State.bikeToWorkSacrifice s;
     nurseryAnnualCost := nurseryAnnualCost;
     freeHours9MonthsTo3Years := freeHours9MonthsTo3Years;
     freeHours3To4Years := freeHours3To4Years;
     paidHours9MonthsTo3Years := paidHours9MonthsTo3Years;
     paidHours3To4Years := paidHours3To4Years;
     cost9MonthsTo3Years := cost9MonthsTo3Years;
     cost3To4Years := cost3To4Years;
     isUnder100k := isUnder100k;
     takeHome := takeHome |}.

(** Salary 50,000, bonus 0, employee pension 5%, employer pension 3%, no
    salary sacrifice, no children; nursery cost and hours as [useState] has
    them (12 and 40). *)
Definition scenario : State.t := State.mk 50000 0 5 3 0 0 12 40 0 0.

End Binary64.

(** ** Closed forms the walks are compared with *)

Definition taxClosed (x : Q) : Q :=
  if Qle_bool x 12570 then 0
  else if Qle_bool x 50270 then (x - 12570) * 0.2
  else if Qle_bool x 125140 then 7540 + (x - 50270) * 0.4
  else 37488 + (x - 125140) * 0.45.

Definition niClosed (x : Q) : Q :=
  if Qle_bool x 12570 then 0
  else if Qle_bool x 50270 then (x - 12570) * 0.12
  else (50270 - 12570) * 0.12 + (x - 50270) * 0.02.

(** [State.t] with one cohort's head count replaced. *)
Definition withYoung (s : State.t) (n : Q) : State.t :=
  State.mk (State.salary s) (State.bonus s) (State.pensionContributionPercent s)
    (State.employerPensionPercent s) (State.electricCarSacrifice s)
    (State.bikeToWorkSacrifice s) (State.nurseryCostPerHour s)
    (State.nurseryHoursPerWeek s) n (State.children3To4Years s).

Definition withMid (s : State.t) (n : Q) : State.t :=
  State.mk (State.salary s) (State.bonus s) (State.pensionContributionPercent s)
    (State.employerPensionPercent s) (State.electricCarSacrifice s)
    (State.bikeToWorkSacrifice s) (State.nurseryCostPerHour s)
    (State.nurseryHoursPerWeek s) (State.children9MonthsTo3Years s) n.

(** [State.t] with the salary, or the employer's percentage, replaced. *)
Definition withSalary (s : State.t) (x : Q) : State.t :=
  State.mk x (State.bonus s) (State.pensionContributionPercent s)
    (State.employerPensionPercent s) (State.electricCarSacrifice s)
    (State.bikeToWorkSacrifice s) (State.nurseryCostPerHour s)
    (State.nurseryHoursPerWeek s) (State.children9MonthsTo3Years s)
    (State.children3To4Years s).

Definition withEmployerPensionPercent (s : State.t) (x : Q) : State.t :=
  State.mk (State.salary s) (State.bonus s) (State.pensionContributionPercent s)
    x (State.electricCarSacrifice s)
    (State.bikeToWorkSacrifice s) (State.nurseryCostPerHour s)
    (State.nurseryHoursPerWeek s) (State.children9MonthsTo3Years s)
    (State.children3To4Years s).

(** A bracket a walk can be run on without surprises: a rate between 0 and 1
    and a [max] that is not below its [min]. *)
Definition bracket_ok (b : Bracket) : Prop :=
  0 <= rate b <= 1 /\
  match max b with
  | Finite m => min b <= m
  | POSITIVE_INFINITY => True
  end.

(** ** The earlier version of the page (page.tsx, lines 416-741)

    One free-hours rule for all children and a fixed 3% employer
    contribution.  Its tables, [calculateTax] and [calculateNI] (lines
    424-487) are the text of lines 10-74 again, so the definitions above
    stand for them. *)

Module FlatHours.

Definition FREE_CHILDCARE_HOURS_PER_WEEK : Q := 30.

Module State.

Record t : Type := mk {
  salary : Q;
  bonus : Q;
  pensionContributionPercent : Q;
  electricCarSacrifice : Q;
  bikeToWorkSacrifice : Q;
  nurseryCostPerHour : Q;
  nurseryHoursPerWeek : Q;
  numberOfChildren : Q
}.

End State.

Record Calculations : Type := mkCalculations {
  grossIncome : Q;
  taxableIncome : Q;
  employeePensionContribution : Q;
  employerPensionContribution : Q;
  totalPensionContribution : Q;
  tax : Q;
  nationalInsurance : Q;
  totalSalarySacrifice : Q;
  electricCarSacrifice : Q;
  bikeToWorkSacrifice : Q;
  nurseryAnnualCost : Q;
  freeHoursPerChild : Q;
  paidHoursPerChild : Q;
  takeHome : Q
}.

(** Lines 499-533. *)
Definition calculations (s : State.t) : Calculations :=
  let grossIncome := State.salary s + State.bonus s in
  let totalSalarySacrifice :=
    State.electricCarSacrifice s + State.bikeToWorkSacrifice s in
  let employeePensionContribution :=
    (grossIncome * State.pensionContributionPercent s) / 100 in
  (* Assuming 3% employer contribution *)
  let employerPensionContribution := (grossIncome * 3) / 100 in
  let totalPensionContribution :=
    employeePensionContribution + employerPensionContribution in
  let taxableIncome :=
    grossIncome - employeePensionContribution - totalSalarySacrifice in
  let tax := calculateTax taxableIncome in
  let nationalInsurance :=
    calculateNI (grossIncome - employeePensionContribution - totalSalarySacrifice) in
  (* Nursery calculations *)
  let freeHoursPerChild :=
    if Qltb taxableIncome CHILDCARE_FREE_HOURS_THRESHOLD
    then FREE_CHILDCARE_HOURS_PER_WEEK else 0 in
  let paidHoursPerChild :=
    Math_max 0 (State.nurseryHoursPerWeek s - freeHoursPerChild) in
  let nurseryAnnualCost :=
    paidHoursPerChild * State.nurseryCostPerHour s
    * SCHOOL_WEEKS_PER_YEAR * State.numberOfChildren s in
  let takeHome :=
    grossIncome - employeePensionContribution - tax - nationalInsurance
    - totalSalarySacrifice - nurseryAnnualCost in
  {| grossIncome := grossIncome;
     taxableIncome := taxableIncome;
     employeePensionContribution := employeePensionContribution;
     employerPensionContribution := employerPensionContribution;
     totalPensionContribution := totalPensionContribution;
     tax := tax;
     nationalInsurance := nationalInsurance;
     totalSalarySacrifice := totalSalarySacrifice;
     electricCarSacrifice := State.electricCarSacrifice s;
     bikeToWorkSacrifice := State.bikeToWorkSacrifice s;
     nurseryAnnualCost := nurseryAnnualCost;
     freeHoursPerChild := freeHoursPerChild;
     paidHoursPerChild := paidHoursPerChild;
     takeHome := takeHome |}.

End FlatHours.

(** The state of the earlier version that a state of the current one
    corresponds to: the same fields, and all the children counted together. *)
Definition flatten (s : State.t) : FlatHours.State.t :=
  FlatHours.State.mk (State.salary s) (State.bonus s)
    (State.pensionContributionPercent s) (State.electricCarSacrifice s)
    (State.bikeToWorkSacrifice s) (State.nurseryCostPerHour s)
    (State.nurseryHoursPerWeek s)
    (State.children9MonthsTo3Years s + State.children3To4Years s).

(** ** The chart component (salary-chart.tsx) *)

Module SalaryChart.

(** Lines 6-19. *)
Record SalaryData : Type := mkSalaryData {
  grossIncome : Q;
  taxableIncome : Q;
  employeePensionContribution : Q;
  employerPensionContribution : Q;
  totalPensionContribution : Q;
  tax : Q;
  nationalInsurance : Q;
  totalSalarySacrifice : Q;
  electricCarSacrifice : Q;
  bikeToWorkSacrifice : Q;
  nurseryAnnualCost : Q;
  takeHome : Q
}.

Definition TAX_THRESHOLDS : list Q := [37700; 60000; 100000; 125140].
Definition PENSION_ALLOWANCE : Q := 60000.

(** An element of [chartData].  Only the pension bar carries the four
    optional fields. *)
Record Item : Type := mkItem {
  name : string;
  value : Q;
  type : string;
  color : string;
  employeePension : option Q;
  employerPension : option Q;
  employeeColor : option string;
  employerColor : option string
}.

Definition bar (name : string) (value : Q) (type color : string) : Item :=
  mkItem name value type color None None None None.

(** [array.includes(x)] on strings. *)
Definition includes (l : list string) (x : string) : bool :=
  existsb (String.eqb x) l.

(** [Math.max(x, ...rest)]. *)
Definition Math_max_of (x : Q) (rest : list Q) : Q := fold_left Qmax rest x.

(** The nine bars before the filter (lines 29-87). *)
Definition allBars (data : SalaryData) : list Item :=
  [ bar "Earnings" (grossIncome data) "earnings" "#64748b";
    bar "Taxable Income" (taxableIncome data) "taxable"
      (if Qle_bool 100000 (taxableIncome data) then "#ef4444" else "#22c55e");
    bar "Take-Home" (takeHome data) "takehome" "#10b981";
    mkItem "Total Pension" (totalPensionContribution data) "pension"
      (if Qgtb (totalPensionContribution data) PENSION_ALLOWANCE
       then "#ef4444" else "#3b82f6")
      (Some (employeePensionContribution data))
      (Some (employerPensionContribution data))
      (Some (if Qgtb (totalPensionContribution data) PENSION_ALLOWANCE
             then "#ef4444" else "#3b82f6"))
      (Some (if Qgtb (totalPensionContribution data) PENSION_ALLOWANCE
             then "#fca5a5" else "#93c5fd"));
    bar "Tax" (tax data) "tax" "#f59e0b";
    bar "National Insurance" (nationalInsurance data) "ni" "#f97316";
    bar "Electric Car" (electricCarSacrifice data) "sacrifice" "#8b5cf6";
    bar "Bike to Work" (bikeToWorkSacrifice data) "sacrifice" "#a855f7";
    bar "Nursery Costs" (nurseryAnnualCost data) "nursery" "#ec4899" ]%string.

(** Line 88: the predicate of [.filter]. *)
Definition keeps (item : Item) : bool :=
  Qgtb (value item) 0
  || includes ["Earnings"; "Taxable Income"; "Take-Home"]%string (name item).

Definition chartData (data : SalaryData) : list Item :=
  filter keeps (allBars data).

(** Line 90. *)
Definition maxValue (data : SalaryData) : Q :=
  Math_max_of (grossIncome data) (TAX_THRESHOLDS ++ [PENSION_ALLOWANCE]).

(** Line 125: the upper end of the Y axis. *)
Definition yDomainMax (data : SalaryData) : Q := maxValue data * 1.1.

(** Lines 229 and 240: when each of the two warnings is rendered. *)
Definition pensionWarning (data : SalaryData) : bool :=
  Qgtb (totalPensionContribution data) PENSION_ALLOWANCE.

Definition highEarnerWarning (data : SalaryData) : bool :=
  Qle_bool 100000 (taxableIncome data).

(** Lines 181-199: the fill of the three [Cell]s drawn for an entry, in the
    employee stack, the employer stack and the regular bar.
    [x || "transparent"] falls back on a missing or empty colour. *)
Definition orTransparent (c : option string) : string :=
  match c with
  | Some x => if String.eqb x "" then "transparent" else x
  | None => "transparent"
  end.

Definition employeeFill (entry : Item) : string :=
  orTransparent (employeeColor entry).

Definition employerFill (entry : Item) : string :=
  orTransparent (employerColor entry).

Definition valueFill (entry : Item) : string :=
  if String.eqb (type entry) "pension" then "transparent" else color entry.

End SalaryChart.

(** [<SalaryChart data={calculations} />] (page.tsx, line 376): the chart
    reads the twelve fields of [SalaryData] off the object it is given. *)
Definition chartProps (c : Calculations) : SalaryChart.SalaryData :=
  SalaryChart.mkSalaryData (grossIncome c) (taxableIncome c)
    (employeePensionContribution c) (employerPensionContribution c)
    (totalPensionContribution c) (tax c) (nationalInsurance c)
    (totalSalarySacrifice c) (electricCarSacrifice c) (bikeToWorkSacrifice c)
    (nurseryAnnualCost c) (takeHome c).

(** * Proofs *)

(** ** Comparisons, minimum and maximum *)

Lemma Qle_bool_false (x y : Q) : Qle_bool x y = false -> y < x.
Proof.
  intros H. apply Qnot_le_lt. intros Hle.
  apply Qle_bool_iff in Hle. congruence.
Qed.

Lemma Qle_bool_true (x y : Q) : x <= y -> Qle_bool x y = true.
Proof. apply Qle_bool_iff. Qed.

Lemma Qle_bool_lt (x y : Q) : y < x -> Qle_bool x y = false.
Proof.
  intros H. destruct (Qle_bool x y) eqn:E; trivial.
  apply Qle_bool_iff in E. lra.
Qed.

Lemma Qmin_cases (x y : Q) : (x <= y /\ Qmin x y = x) \/ (y < x /\ Qmin x y = y).
Proof.
  unfold Qmin, GenericMinMax.gmin.
  destruct (Qcompare_spec x y) as [H|H|H]; [left|left|right]; split; trivial; lra.
Qed.

Lemma Qmax_cases (x y : Q) : (y <= x /\ Qmax x y = x) \/ (x < y /\ Qmax x y = y).
Proof.
  unfold Qmax, GenericMinMax.gmax.
  destruct (Qcompare_spec x y) as [H|H|H]; [left|right|left]; split; trivial; lra.
Qed.

Lemma half_spec (x : Q) : x / 2 == x * (1 # 2).
Proof. reflexivity. Qed.

Ltac prune := try (exfalso; lra).

(** Case analysis on every [Math.min], [Math.max] and comparison met on the
    way through a walk; impossible branches are closed as soon as they show. *)
Ltac split_walk :=
  repeat (cbv beta iota zeta; cbn [fst snd];
    match goal with
    | |- context [Qmin ?a ?b] =>
        let H := fresh "Hmin" in
        destruct (Qmin_cases a b) as [[H ->]|[H ->]]; prune
    | |- context [Qmax ?a ?b] =>
        let H := fresh "Hmax" in
        destruct (Qmax_cases a b) as [[H ->]|[H ->]]; prune
    | |- context [Qle_bool ?a ?b] =>
        let H := fresh "Hle" in
        destruct (Qle_bool a b) eqn:H;
        [apply Qle_bool_iff in H | apply Qle_bool_false in H]; prune
    end).

(** ** The loop *)

(** A body that breaks on the first element leaves the loop variables alone. *)
Lemma forOf_break {B S : Type} (body : B -> S -> option S) (l : list B) (s : S) :
  (forall b, body b s = None) -> forOf body l s = s.
Proof.
  intros H. destruct l as [|b rest]; cbn; [reflexivity|].
  rewrite H. reflexivity.
Qed.

Lemma taxBody_break (ti pa : Q) (b : Bracket) (t r : Q) :
  r <= 0 -> taxBody ti pa b (t, r) = None.
Proof. intros H. unfold taxBody. rewrite (Qle_bool_true _ _ H). reflexivity. Qed.

Lemma niBody_break (b : Bracket) (n r : Q) : r <= 0 -> niBody b (n, r) = None.
Proof. intros H. unfold niBody. rewrite (Qle_bool_true _ _ H). reflexivity. Qed.

(** The personal allowance bracket is taxed at rate 0: whatever allowance it
    is given, an iteration on it moves income out of [remainingIncome] and
    leaves the tax where it was. *)
Lemma taxBody_allowance_bracket (ti pa t r : Q) :
  0 < r ->
  exists t',
    taxBody ti pa (mkBracket 0 (Finite 12570) 0) (t, r)
    = Some (t', r - Qmin r (12570 - 0)) /\ t' == t.
Proof.
  intros H. unfold taxBody. rewrite (Qle_bool_lt _ _ H).
  cbn [min max rate number_sub Math_min Math_max].
  change (Qeq_bool 0 0) with true. cbv iota.
  eexists. split; [reflexivity|]. ring.
Qed.

(** ** The walks in closed form *)

(** Whatever allowance is handed to the walk, the tax is the same piecewise
    linear function of the income. *)
Lemma taxWalk_closed (pa x : Q) : fst (taxWalk x pa TAX_BRACKETS) == taxClosed x.
Proof.
  unfold taxWalk, taxClosed.
  cbv [forOf taxBody TAX_BRACKETS min max rate number_sub Math_min Math_max].
  change (Qeq_bool 0 0) with true.
  change (Qeq_bool 12570 0) with false.
  change (Qeq_bool 50270 0) with false.
  change (Qeq_bool 125140 0) with false.
  split_walk; lra.
Qed.

Lemma calculateTax_closed (x : Q) : calculateTax x == taxClosed x.
Proof. apply taxWalk_closed. Qed.

Lemma calculateNI_closed (x : Q) : calculateNI x == niClosed x.
Proof.
  unfold calculateNI, niClosed.
  cbv [forOf niBody NI_BRACKETS min max rate number_sub Math_min].
  split_walk; lra.
Qed.

Lemma taxClosed_nonneg (x : Q) : 0 <= taxClosed x.
Proof. unfold taxClosed. split_walk; lra. Qed.

Lemma taxClosed_mono (a b : Q) : a <= b -> taxClosed a <= taxClosed b.
Proof. intros H. unfold taxClosed. split_walk; lra. Qed.

(** ** The pipeline, field by field *)

Lemma takeHome_unfold (s : State.t) (r := calculations s) :
  takeHome r =
  grossIncome r - employeePensionContribution r - tax r - nationalInsurance r
  - totalSalarySacrifice r - nurseryAnnualCost r.
Proof. reflexivity. Qed.

Lemma nurseryAnnualCost_unfold (s : State.t) (r := calculations s) :
  nurseryAnnualCost r = cost9MonthsTo3Years r + cost3To4Years r.
Proof. reflexivity. Qed.

Lemma cost9MonthsTo3Years_unfold (s : State.t) (r := calculations s) :
  cost9MonthsTo3Years r =
  paidHours9MonthsTo3Years r * State.nurseryCostPerHour s
  * SCHOOL_WEEKS_PER_YEAR * State.children9MonthsTo3Years s.
Proof. reflexivity. Qed.

Lemma cost3To4Years_unfold (s : State.t) (r := calculations s) :
  cost3To4Years r =
  paidHours3To4Years r * State.nurseryCostPerHour s
  * SCHOOL_WEEKS_PER_YEAR * State.children3To4Years s.
Proof. reflexivity. Qed.

(** The paid hours of a cohort do not depend on either head count. *)
Lemma paidHours_withYoung (s : State.t) (n : Q) :
  paidHours9MonthsTo3Years (calculations (withYoung s n)) =
  paidHours9MonthsTo3Years (calculations s).
Proof. reflexivity. Qed.

Lemma paidHours_withMid (s : State.t) (n : Q) :
  paidHours3To4Years (calculations (withMid s n)) =
  paidHours3To4Years (calculations s).
Proof. reflexivity. Qed.

Lemma isUnder100k_spec (s : State.t) :
  isUnder100k (calculations s) = true <-> taxableIncome (calculations s) < 100000.
Proof.
  cbn [isUnder100k calculations taxableIncome].
  unfold Qltb, CHILDCARE_FREE_HOURS_THRESHOLD.
  set (ti := State.salary s + State.bonus s - _ - _).
  destruct (Qle_bool 100000 ti) eqn:E; cbn.
  - apply Qle_bool_iff in E. split; [discriminate | lra].
  - apply Qle_bool_false in E. split; trivial.
Qed.

Lemma freeHours9MonthsTo3Years_unfold (s : State.t) (r := calculations s) :
  freeHours9MonthsTo3Years r =
  if isUnder100k r then FREE_CHILDCARE_HOURS_PER_WEEK_UNDER_100K else 0.
Proof. reflexivity. Qed.

Lemma freeHours3To4Years_unfold (s : State.t) (r := calculations s) :
  freeHours3To4Years r =
  if isUnder100k r then FREE_CHILDCARE_HOURS_PER_WEEK_UNDER_100K
  else FREE_CHILDCARE_HOURS_PER_WEEK_3_4_YEARS.
Proof. reflexivity. Qed.

(** * The claims *)

(** The scenario in the exact model: whatever the nursery price and the hours
    asked for, taxableIncome is 47,500, tax 6,986, National Insurance
    4,191.6 and take-home pay 36,322.4 when nothing is rounded. *)
Lemma scenario_50000_no_children (cost hours : Q) :
  let r := calculations (State.mk 50000 0 5 3 0 0 cost hours 0 0) in
  taxableIncome r == 47500 /\
  tax r == 6986 /\
  nationalInsurance r == 4191.6 /\
  takeHome r == 36322.4.
Proof.
  intros r.
  assert (Hti : taxableIncome r == 47500) by reflexivity.
  assert (Htax : tax r == 6986) by (vm_compute; reflexivity).
  assert (Hni : nationalInsurance r == 4191.6) by (vm_compute; reflexivity).
  assert (Hg : grossIncome r == 50000) by reflexivity.
  assert (Hp : employeePensionContribution r == 2500) by reflexivity.
  assert (Hs : totalSalarySacrifice r == 0) by reflexivity.
  assert (Hc : nurseryAnnualCost r == 0).
  { subst r. rewrite nurseryAnnualCost_unfold, cost9MonthsTo3Years_unfold,
      cost3To4Years_unfold.
    cbn [State.children9MonthsTo3Years State.children3To4Years]. ring. }
  repeat split; trivial.
  subst r. rewrite takeHome_unfold. lra.
Qed.

(** On binary64 numbers the National Insurance of the scenario is not the
    number the literal 4191.6 denotes. *)
Lemma scenario_50000_ni_is_not_4191_6 :
  Binary64.nationalInsurance (Binary64.calculations Binary64.scenario)
  <> 4191.6%float.
Proof.
  intros H.
  apply (f_equal (fun x => PrimFloat.eqb x 4191.6%float)) in H.
  vm_compute in H. discriminate H.
Qed.

(** C1 (amended): with salary 50,000, bonus 0, employee pension 5%, employer
    pension 3%, no salary sacrifice and no children, the pipeline returns
    taxableIncome = 47,500, tax = 6,986 and takeHome = 36,322.4, and a
    nationalInsurance that is the binary64 product (47,500 - 12,570) * 0.12,
    printed 4191.599999999999: the binary64 number just below the one the
    literal 4191.6 denotes, and not equal to it. *)
Theorem scenario_50000_binary64 :
  let r := Binary64.calculations Binary64.scenario in
  Binary64.taxableIncome r = 47500%float /\
  Binary64.tax r = 6986%float /\
  Binary64.nationalInsurance r = ((47500 - 12570) * 0.12)%float /\
  Binary64.nationalInsurance r = 0x1.05f9999999999p+12%float /\
  PrimFloat.next_up (Binary64.nationalInsurance r) = 4191.6%float /\
  PrimFloat.eqb (Binary64.nationalInsurance r) 4191.6%float = false /\
  Binary64.takeHome r = 36322.4%float.
Proof. vm_compute. repeat split. Qed.

(** C2: for every input, taxableIncome is
    (salary + bonus) - (salary + bonus) * employeePensionPercent / 100
    - (electricCarSacrifice + bikeToWorkSacrifice); National Insurance and tax
    are both computed on that taxableIncome; and takeHome is grossIncome
    - employeePension - tax - nationalInsurance - totalSalarySacrifice
    - totalNurseryCost. *)
Theorem pipeline_equations (s : State.t) :
  let r := calculations s in
  taxableIncome r =
    (State.salary s + State.bonus s)
    - (State.salary s + State.bonus s) * State.pensionContributionPercent s / 100
    - (State.electricCarSacrifice s + State.bikeToWorkSacrifice s) /\
  tax r = calculateTax (taxableIncome r) /\
  nationalInsurance r = calculateNI (taxableIncome r) /\
  takeHome r =
    grossIncome r - employeePensionContribution r - tax r - nationalInsurance r
    - totalSalarySacrifice r - nurseryAnnualCost r.
Proof. intros r. repeat split. Qed.

(** C3: the effective personal allowance is 12,570 for taxable income up to
    and including 100,000; above 100,000 it is 12,570 less
    min(12,570, (income - 100,000) / 2); so it is 12,570 at 100,000, 0 at
    125,140, still 0 at 150,000, and it is never negative. *)
Theorem personalAllowance_taper (income : Q) :
  (income <= 100000 -> personalAllowance income = 12570) /\
  (100000 < income ->
     personalAllowance income = 12570 - Qmin 12570 ((income - 100000) / 2)) /\
  personalAllowance 100000 == 12570 /\
  personalAllowance 125140 == 0 /\
  personalAllowance 150000 == 0 /\
  (125140 <= income -> personalAllowance income == 0) /\
  0 <= personalAllowance income.
Proof.
  unfold personalAllowance, Qgtb, Math_min.
  repeat split; try reflexivity.
  - intros H. rewrite (Qle_bool_true _ _ H). reflexivity.
  - intros H. rewrite (Qle_bool_lt _ _ H). reflexivity.
  - intros H. rewrite Qle_bool_lt by lra. cbn [negb].
    destruct (Qmin_cases 12570 ((income - 100000) / 2)) as [[Hm ->]|[Hm ->]].
    + lra.
    + rewrite half_spec in Hm. lra.
  - destruct (Qle_bool income 100000); cbn [negb]; [|split_walk]; lra.
Qed.

Lemma personalAllowance_taper_witness :
  (90000 <= 100000 /\ personalAllowance 90000 = 12570) /\
  (100000 < 110000 /\
   personalAllowance 110000 = 12570 - Qmin 12570 ((110000 - 100000) / 2)) /\
  (125140 <= 130000 /\ personalAllowance 130000 == 0).
Proof.
  split; [|split].
  - split; [lra|]. apply (proj1 (personalAllowance_taper 90000)). lra.
  - split; [lra|]. apply (proj1 (proj2 (personalAllowance_taper 110000))). lra.
  - split; [lra|].
    apply (proj1 (proj2 (proj2 (proj2 (proj2 (proj2
      (personalAllowance_taper 130000))))))). lra.
Defined.

(** C4: for every taxable income, calculateTax returns the same value as the
    same bracket walk run with the allowance held at 12,570: the allowance is
    only subtracted inside the first bracket, whose rate is 0, so the taper
    never changes the tax, also above 100,000. *)
Theorem calculateTax_ignores_taper (income : Q) :
  calculateTax income == calculateTax_fixed_allowance income.
Proof.
  unfold calculateTax, calculateTax_fixed_allowance.
  rewrite !taxWalk_closed. reflexivity.
Qed.

(** C5: eligibility is the strict comparison taxableIncome < 100,000: at
    taxableIncome 99,999 a child of 9 months to 3 years gets 30 free hours a
    week, at 100,000 it gets 0, and a child of 3 to 4 years gets 30 when
    eligible and 15 otherwise, hence at least 15 for every income. *)
Theorem childcare_eligibility (s : State.t) :
  let r := calculations s in
  (isUnder100k r = true <-> taxableIncome r < 100000) /\
  (taxableIncome r == 99999 -> freeHours9MonthsTo3Years r = 30) /\
  (taxableIncome r == 100000 -> freeHours9MonthsTo3Years r = 0) /\
  freeHours3To4Years r = (if isUnder100k r then 30 else 15) /\
  15 <= freeHours3To4Years r.
Proof.
  intros r. subst r.
  pose proof (isUnder100k_spec s) as Hspec.
  rewrite freeHours9MonthsTo3Years_unfold, freeHours3To4Years_unfold.
  unfold FREE_CHILDCARE_HOURS_PER_WEEK_UNDER_100K,
    FREE_CHILDCARE_HOURS_PER_WEEK_3_4_YEARS.
  repeat split.
  - apply Hspec.
  - apply Hspec.
  - intros H. destruct (isUnder100k (calculations s)); [reflexivity|].
    assert (false = true) by (apply Hspec; lra). discriminate.
  - intros H. destruct (isUnder100k (calculations s)); [|reflexivity].
    assert (taxableIncome (calculations s) < 100000) by (apply Hspec; reflexivity).
    lra.
  - destruct (isUnder100k (calculations s)); lra.
Qed.

Lemma childcare_eligibility_witness :
  (taxableIncome (calculations (State.mk 99999 0 0 3 0 0 12 40 1 1)) == 99999 /\
   freeHours9MonthsTo3Years
     (calculations (State.mk 99999 0 0 3 0 0 12 40 1 1)) = 30) /\
  (taxableIncome (calculations (State.mk 100000 0 0 3 0 0 12 40 1 1)) == 100000 /\
   freeHours9MonthsTo3Years
     (calculations (State.mk 100000 0 0 3 0 0 12 40 1 1)) = 0).
Proof.
  split; (split; [reflexivity|]).
  - apply (proj1 (proj2 (childcare_eligibility (State.mk 99999 0 0 3 0 0 12 40 1 1)))).
    reflexivity.
  - apply (proj1 (proj2 (proj2
      (childcare_eligibility (State.mk 100000 0 0 3 0 0 12 40 1 1))))).
    reflexivity.
Defined.

(** C6: National Insurance is the piecewise linear schedule: 0 up to and
    including 12,570; (income - 12,570) * 0.12 between 12,570 and 50,270;
    and above 50,270 the rate on what exceeds it is 0.02:
    (50,270 - 12,570) * 0.12 + (income - 50,270) * 0.02. *)
Theorem calculateNI_piecewise (income : Q) :
  (income <= 12570 -> calculateNI income == 0) /\
  (12570 <= income <= 50270 -> calculateNI income == (income - 12570) * 0.12) /\
  (50270 <= income ->
     calculateNI income == (50270 - 12570) * 0.12 + (income - 50270) * 0.02).
Proof.
  repeat split; intros; rewrite ?calculateNI_closed; unfold niClosed;
    split_walk; lra.
Qed.

Lemma calculateNI_piecewise_witness :
  (10000 <= 12570 /\ calculateNI 10000 == 0) /\
  (12570 <= 47500 <= 50270 /\ calculateNI 47500 == (47500 - 12570) * 0.12) /\
  (50270 <= 60000 /\
   calculateNI 60000 == (50270 - 12570) * 0.12 + (60000 - 50270) * 0.02).
Proof.
  split; [|split].
  - split; [lra|]. apply (proj1 (calculateNI_piecewise 10000)). lra.
  - split; [lra|]. apply (proj1 (proj2 (calculateNI_piecewise 47500))). lra.
  - split; [lra|]. apply (proj2 (proj2 (calculateNI_piecewise 60000))). lra.
Defined.

(** C7: on non-negative incomes the tax is non-negative and monotonically
    non-decreasing: 0 <= a <= b gives 0 <= calculateTax(a) <= calculateTax(b). *)
Theorem calculateTax_nonneg_monotone (a b : Q) :
  0 <= a -> a <= b ->
  0 <= calculateTax a /\ calculateTax a <= calculateTax b.
Proof.
  intros _ Hab. rewrite !calculateTax_closed. split.
  - apply taxClosed_nonneg.
  - apply taxClosed_mono, Hab.
Qed.

Lemma calculateTax_nonneg_monotone_witness :
  0 <= 47500 /\ 47500 <= 150000 /\
  0 <= calculateTax 47500 /\ calculateTax 47500 <= calculateTax 150000.
Proof.
  split; [lra|]. split; [lra|].
  apply (calculateTax_nonneg_monotone 47500 150000); lra.
Defined.

(** C8: the tax at 12,570 is 0 and the tax at 12,571 is positive.  An income
    that sits on a band boundary belongs to the lower band: once the bands
    below the boundary have been visited nothing of the income remains, the
    loop breaks on whatever bracket comes next, and the tax is that of the
    full lower bands. *)
Theorem band_boundaries :
  calculateTax 12570 == 0 /\
  0 < calculateTax 12571 /\
  (snd (walkedThrough 12570 1) == 0 /\
   forall b, taxBody 12570 (personalAllowance 12570) b (walkedThrough 12570 1) = None) /\
  (snd (walkedThrough 50270 2) == 0 /\
   (forall b, taxBody 50270 (personalAllowance 50270) b (walkedThrough 50270 2) = None) /\
   calculateTax 50270 == (50270 - 12570) * 0.2) /\
  (snd (walkedThrough 125140 3) == 0 /\
   (forall b, taxBody 125140 (personalAllowance 125140) b (walkedThrough 125140 3) = None) /\
   calculateTax 125140 == (50270 - 12570) * 0.2 + (125140 - 50270) * 0.4).
Proof.
  assert (Hbreak : forall x k, snd (walkedThrough x k) == 0 ->
            forall b, taxBody x (personalAllowance x) b (walkedThrough x k) = None).
  { intros x k H b. destruct (walkedThrough x k) as [t r].
    apply taxBody_break. cbn [snd] in H. lra. }
  assert (H1 : snd (walkedThrough 12570 1) == 0) by (vm_compute; reflexivity).
  assert (H2 : snd (walkedThrough 50270 2) == 0) by (vm_compute; reflexivity).
  assert (H3 : snd (walkedThrough 125140 3) == 0) by (vm_compute; reflexivity).
  repeat split; auto; vm_compute; reflexivity.
Qed.

(** C9: a cohort's annual nursery cost follows that cohort's head count:
    doubling the count of children of 9 months to 3 years, all else fixed,
    exactly doubles that cohort's cost (and so for the cohort of 3 to 4
    years), and a cohort of zero children costs nothing whatever the hourly
    cost, the hours asked for and the income. *)
Theorem cohort_cost_linear (s : State.t) :
  cost9MonthsTo3Years
    (calculations (withYoung s (2 * State.children9MonthsTo3Years s)))
  == 2 * cost9MonthsTo3Years (calculations s) /\
  cost3To4Years (calculations (withMid s (2 * State.children3To4Years s)))
  == 2 * cost3To4Years (calculations s) /\
  cost9MonthsTo3Years (calculations (withYoung s 0)) == 0 /\
  cost3To4Years (calculations (withMid s 0)) == 0.
Proof.
  rewrite !cost9MonthsTo3Years_unfold, !cost3To4Years_unfold.
  rewrite !paidHours_withYoung, !paidHours_withMid.
  cbn [withYoung withMid State.children9MonthsTo3Years State.children3To4Years
       State.nurseryCostPerHour].
  repeat split; ring.
Qed.

(** C10: calculateTax and calculateNI are total, and for every income <= 0
    (zero or negative) both return exactly 0: the loop breaks before its first
    bracket. *)
Theorem nonpositive_income_no_liability (income : Q) :
  income <= 0 -> calculateTax income = 0 /\ calculateNI income = 0.
Proof.
  intros H. unfold calculateTax, taxWalk, calculateNI. split.
  - rewrite forOf_break; [reflexivity|].
    intros b. apply taxBody_break, H.
  - rewrite forOf_break; [reflexivity|].
    intros b. apply niBody_break, H.
Qed.

Lemma nonpositive_income_no_liability_witness :
  -5000 <= 0 /\ calculateTax (-5000) = 0 /\ calculateNI (-5000) = 0.
Proof.
  split; [lra|]. apply (nonpositive_income_no_liability (-5000)). lra.
Defined.

(** * Further properties of the code *)

(** ** The two walks *)

(** X1: calculateTax is the piecewise linear schedule of its table: 0 up to
    12,570, then 20% up to 50,270, 40% up to 125,140 and 45% beyond.  The
    40% piece runs all the way from 50,270 to 125,140: nothing extra is
    charged between 100,000 and 125,140. *)
Theorem calculateTax_piecewise (income : Q) :
  (income <= 12570 -> calculateTax income == 0) /\
  (12570 <= income <= 50270 -> calculateTax income == (income - 12570) * 0.2) /\
  (50270 <= income <= 125140 ->
     calculateTax income == 7540 + (income - 50270) * 0.4) /\
  (125140 <= income ->
     calculateTax income == 37488 + (income - 125140) * 0.45).
Proof.
  repeat split; intros; rewrite calculateTax_closed; unfold taxClosed;
    split_walk; lra.
Qed.

Lemma calculateTax_piecewise_witness :
  (10000 <= 12570 /\ calculateTax 10000 == 0) /\
  (12570 <= 47500 <= 50270 /\ calculateTax 47500 == (47500 - 12570) * 0.2) /\
  (50270 <= 110000 <= 125140 /\
   calculateTax 110000 == 7540 + (110000 - 50270) * 0.4) /\
  (125140 <= 150000 /\ calculateTax 150000 == 37488 + (150000 - 125140) * 0.45).
Proof.
  split; [|split; [|split]].
  - split; [lra|]. apply (proj1 (calculateTax_piecewise 10000)). lra.
  - split; [lra|]. apply (proj1 (proj2 (calculateTax_piecewise 47500))). lra.
  - split; [lra|].
    apply (proj1 (proj2 (proj2 (calculateTax_piecewise 110000)))). lra.
  - split; [lra|].
    apply (proj2 (proj2 (proj2 (calculateTax_piecewise 150000)))). lra.
Defined.

Lemma niClosed_nonneg (x : Q) : 0 <= niClosed x.
Proof. unfold niClosed. split_walk; lra. Qed.

Lemma niClosed_mono (a b : Q) : a <= b -> niClosed a <= niClosed b.
Proof. intros H. unfold niClosed. split_walk; lra. Qed.

(** X2: National Insurance is never negative and never falls when the income
    rises, for all incomes. *)
Theorem calculateNI_nonneg_monotone (a b : Q) :
  a <= b -> 0 <= calculateNI a /\ calculateNI a <= calculateNI b.
Proof.
  intros Hab. rewrite !calculateNI_closed. split.
  - apply niClosed_nonneg.
  - apply niClosed_mono, Hab.
Qed.

Lemma calculateNI_nonneg_monotone_witness :
  47500 <= 60000 /\ 0 <= calculateNI 47500 /\ calculateNI 47500 <= calculateNI 60000.
Proof.
  split; [lra|]. apply (calculateNI_nonneg_monotone 47500 60000). lra.
Defined.

Lemma deductions_closed_step (a b : Q) :
  a <= b ->
  0 <= (taxClosed b + niClosed b) - (taxClosed a + niClosed a) <= 0.47 * (b - a).
Proof. intros H. unfold taxClosed, niClosed. split_walk; lra. Qed.

Lemma deductions_marginal_rate_aux (a b : Q) :
  a <= b ->
  0 <= (calculateTax b + calculateNI b) - (calculateTax a + calculateNI a)
    <= 0.47 * (b - a).
Proof.
  intros H. rewrite !calculateTax_closed, !calculateNI_closed.
  apply deductions_closed_step, H.
Qed.

Lemma deductions_at_most_47_percent (x : Q) :
  0 <= x -> 0 <= calculateTax x + calculateNI x <= 0.47 * x.
Proof.
  intros H. pose proof (deductions_closed_step 0 x H) as D.
  rewrite calculateTax_closed, calculateNI_closed.
  change (taxClosed 0) with 0 in D. change (niClosed 0) with 0 in D. lra.
Qed.

(** X3: tax and National Insurance together never fall when the income
    rises and never take more than 47% of a non-negative income: for a <= b
    with b >= 0, 0 <= tax(a) + NI(a) <= tax(b) + NI(b) <= 0.47 * b. *)
Theorem deductions_monotone_capped (a b : Q) :
  a <= b -> 0 <= b ->
  0 <= calculateTax a + calculateNI a /\
  calculateTax a + calculateNI a <= calculateTax b + calculateNI b /\
  calculateTax b + calculateNI b <= 0.47 * b.
Proof.
  intros Hab Hb.
  pose proof (deductions_marginal_rate_aux a b Hab) as Hstep.
  pose proof (deductions_at_most_47_percent b Hb) as Hcap.
  pose proof (taxClosed_nonneg a) as Ht. rewrite <- calculateTax_closed in Ht.
  pose proof (niClosed_nonneg a) as Hn. rewrite <- calculateNI_closed in Hn.
  repeat split; lra.
Qed.

Lemma deductions_monotone_capped_witness :
  47500 <= 150000 /\ 0 <= 150000 /\
  0 <= calculateTax 47500 + calculateNI 47500 /\
  calculateTax 47500 + calculateNI 47500
    <= calculateTax 150000 + calculateNI 150000 /\
  calculateTax 150000 + calculateNI 150000 <= 0.47 * 150000.
Proof.
  split; [lra|]. split; [lra|].
  apply (deductions_monotone_capped 47500 150000); lra.
Defined.

(** ** The walks on an arbitrary table *)

Lemma scale_bounds (t q : Q) : 0 <= t -> 0 <= q <= 1 -> 0 <= t * q <= t.
Proof. intros Ht [H0 H1]. split; nra. Qed.

(** What an iteration takes out of [remainingIncome] lies between 0 and
    [remainingIncome]. *)
Lemma taken_bounds (r : Q) (b : Bracket) :
  bracket_ok b -> 0 < r ->
  0 <= Math_min r (number_sub (max b) (min b)) <= r.
Proof.
  intros [_ Hw] Hr. unfold Math_min, number_sub.
  destruct (max b) as [m|]; [|lra].
  destruct (Qmin_cases r (m - min b)) as [[H ->]|[H ->]]; lra.
Qed.

Lemma niBody_step (b : Bracket) (n r : Q) :
  0 < r ->
  niBody b (n, r) =
  Some (n + Math_min r (number_sub (max b) (min b)) * rate b,
        r - Math_min r (number_sub (max b) (min b))).
Proof. intros H. unfold niBody. rewrite (Qle_bool_lt _ _ H). reflexivity. Qed.

Lemma niWalk_invariant (l : list Bracket) :
  Forall bracket_ok l ->
  forall n r, 0 <= r ->
  0 <= snd (forOf niBody l (n, r)) <= r /\
  n <= fst (forOf niBody l (n, r)) <= n + (r - snd (forOf niBody l (n, r))).
Proof.
  induction 1 as [|b l Hb Hl IH]; intros n r Hr; cbn [forOf].
  - cbn [fst snd]. lra.
  - destruct (Qle_bool r 0) eqn:E.
    + apply Qle_bool_iff in E. rewrite niBody_break by exact E.
      cbn [fst snd]. lra.
    + apply Qle_bool_false in E. rewrite niBody_step by exact E.
      pose proof (taken_bounds r b Hb E) as Ht.
      set (t := Math_min r (number_sub (max b) (min b))) in *.
      pose proof (scale_bounds t (rate b) (proj1 Ht) (proj1 Hb)) as Hs.
      specialize (IH (n + t * rate b) (r - t)).
      destruct IH as [IHr IHn]; [lra|].
      split; lra.
Qed.

(** The taxed amount of an iteration of [calculateTax]: all that the
    iteration takes, or, in a bracket that starts at 0, what is left of it
    above the allowance. *)
Lemma taxBody_step (ti pa : Q) (b : Bracket) (tx r : Q) :
  bracket_ok b -> 0 <= pa -> 0 < r ->
  exists a,
    taxBody ti pa b (tx, r)
    = Some (tx + a * rate b, r - Math_min r (number_sub (max b) (min b)))
    /\ 0 <= a <= Math_min r (number_sub (max b) (min b)).
Proof.
  intros Hb Hpa Hr. pose proof (taken_bounds r b Hb Hr) as Ht.
  unfold taxBody. rewrite (Qle_bool_lt _ _ Hr).
  set (t := Math_min r (number_sub (max b) (min b))) in *.
  cbv zeta. destruct (Qeq_bool (min b) 0).
  - eexists. split; [reflexivity|].
    unfold Math_max, Math_min. split_walk; lra.
  - exists t. split; [reflexivity|lra].
Qed.

Lemma taxWalk_invariant (ti pa : Q) (l : list Bracket) :
  0 <= pa -> Forall bracket_ok l ->
  forall tx r, 0 <= r ->
  0 <= snd (forOf (taxBody ti pa) l (tx, r)) <= r /\
  tx <= fst (forOf (taxBody ti pa) l (tx, r))
     <= tx + (r - snd (forOf (taxBody ti pa) l (tx, r))).
Proof.
  intros Hpa. induction 1 as [|b l Hb Hl IH]; intros tx r Hr; cbn [forOf].
  - cbn [fst snd]. lra.
  - destruct (Qle_bool r 0) eqn:E.
    + apply Qle_bool_iff in E. rewrite taxBody_break by exact E.
      cbn [fst snd]. lra.
    + apply Qle_bool_false in E.
      destruct (taxBody_step ti pa b tx r Hb Hpa E) as (a & -> & Ha).
      pose proof (taken_bounds r b Hb E) as Ht.
      set (t := Math_min r (number_sub (max b) (min b))) in *.
      pose proof (scale_bounds a (rate b) (proj1 Ha) (proj1 Hb)) as Hs.
      specialize (IH (tx + a * rate b) (r - t)).
      destruct IH as [IHr IHn]; [lra|].
      split; lra.
Qed.

Lemma NI_BRACKETS_ok : Forall bracket_ok NI_BRACKETS.
Proof.
  unfold NI_BRACKETS, bracket_ok.
  repeat constructor; cbn [min max rate]; lra.
Qed.

Lemma TAX_BRACKETS_ok : Forall bracket_ok TAX_BRACKETS.
Proof.
  unfold TAX_BRACKETS, bracket_ok.
  repeat constructor; cbn [min max rate]; lra.
Qed.

Lemma personalAllowance_nonneg (x : Q) : 0 <= personalAllowance x.
Proof.
  unfold personalAllowance, Qgtb, Math_min.
  destruct (Qle_bool x 100000); cbn [negb]; [|split_walk]; lra.
Qed.

(** X4: the loop of calculateNI, run on any table whose rates lie between 0
    and 1 and whose brackets have max >= min, turns a non-negative income
    into a liability between 0 and what it took out of the income, and never
    drives remainingIncome below 0. *)
Theorem niWalk_any_table (l : list Bracket) (income : Q) :
  Forall bracket_ok l -> 0 <= income ->
  0 <= snd (forOf niBody l (0, income)) <= income /\
  0 <= fst (forOf niBody l (0, income))
    <= income - snd (forOf niBody l (0, income)).
Proof.
  intros Hl Hi. destruct (niWalk_invariant l Hl 0 income Hi) as [Hr Hn].
  split; lra.
Qed.

Lemma niWalk_any_table_witness :
  Forall bracket_ok NI_BRACKETS /\ 0 <= 47500 /\
  (0 <= snd (forOf niBody NI_BRACKETS (0, 47500)) <= 47500 /\
   0 <= fst (forOf niBody NI_BRACKETS (0, 47500))
     <= 47500 - snd (forOf niBody NI_BRACKETS (0, 47500))).
Proof.
  split; [exact NI_BRACKETS_ok|]. split; [lra|].
  apply (niWalk_any_table NI_BRACKETS 47500); [exact NI_BRACKETS_ok|lra].
Defined.

(** X5: the loop of calculateTax, run with any non-negative allowance on any
    table whose rates lie between 0 and 1 and whose brackets have
    max >= min, turns a non-negative income into a tax between 0 and what it
    took out of the income, and never drives remainingIncome below 0. *)
Theorem taxWalk_any_table (l : list Bracket) (income pa : Q) :
  Forall bracket_ok l -> 0 <= pa -> 0 <= income ->
  0 <= snd (taxWalk income pa l) <= income /\
  0 <= fst (taxWalk income pa l) <= income - snd (taxWalk income pa l).
Proof.
  intros Hl Hpa Hi. unfold taxWalk.
  destruct (taxWalk_invariant income pa l Hpa Hl 0 income Hi) as [Hr Hn].
  split; lra.
Qed.

Lemma taxWalk_any_table_witness :
  Forall bracket_ok TAX_BRACKETS /\ 0 <= personalAllowance 110000 /\
  0 <= 110000 /\
  (0 <= snd (taxWalk 110000 (personalAllowance 110000) TAX_BRACKETS) <= 110000 /\
   0 <= fst (taxWalk 110000 (personalAllowance 110000) TAX_BRACKETS)
     <= 110000 - snd (taxWalk 110000 (personalAllowance 110000) TAX_BRACKETS)).
Proof.
  split; [exact TAX_BRACKETS_ok|].
  split; [exact (personalAllowance_nonneg 110000)|]. split; [lra|].
  apply (taxWalk_any_table TAX_BRACKETS 110000 (personalAllowance 110000));
    [exact TAX_BRACKETS_ok|exact (personalAllowance_nonneg 110000)|lra].
Defined.

(** ** The pipeline *)

Lemma div100 (x : Q) : x / 100 == x * 0.01.
Proof. unfold Qdiv. reflexivity. Qed.

Lemma taxableIncome_unfold (s : State.t) (r := calculations s) :
  taxableIncome r =
  grossIncome r - employeePensionContribution r - totalSalarySacrifice r.
Proof. reflexivity. Qed.

Lemma tax_unfold (s : State.t) (r := calculations s) :
  tax r = calculateTax (taxableIncome r).
Proof. reflexivity. Qed.

Lemma nationalInsurance_unfold (s : State.t) (r := calculations s) :
  nationalInsurance r = calculateNI (taxableIncome r).
Proof. reflexivity. Qed.

(** Take-home pay is the taxable income less tax, National Insurance and the
    nursery bill. *)
Lemma takeHome_from_taxable (s : State.t) (r := calculations s) :
  takeHome r ==
  taxableIncome r - calculateTax (taxableIncome r)
  - calculateNI (taxableIncome r) - nurseryAnnualCost r.
Proof.
  subst r. rewrite takeHome_unfold, taxableIncome_unfold, tax_unfold,
    nationalInsurance_unfold, taxableIncome_unfold. lra.
Qed.

Lemma paidHours9MonthsTo3Years_unfold (s : State.t) (r := calculations s) :
  paidHours9MonthsTo3Years r =
  Qmax 0 (State.nurseryHoursPerWeek s - freeHours9MonthsTo3Years r).
Proof. reflexivity. Qed.

Lemma paidHours3To4Years_unfold (s : State.t) (r := calculations s) :
  paidHours3To4Years r =
  Qmax 0 (State.nurseryHoursPerWeek s - freeHours3To4Years r).
Proof. reflexivity. Qed.

(** The free hours of both cohorts, read off the eligibility flag. *)
Ltac by_eligibility s :=
  rewrite ?paidHours9MonthsTo3Years_unfold, ?paidHours3To4Years_unfold,
    ?freeHours9MonthsTo3Years_unfold, ?freeHours3To4Years_unfold;
  unfold FREE_CHILDCARE_HOURS_PER_WEEK_UNDER_100K,
    FREE_CHILDCARE_HOURS_PER_WEEK_3_4_YEARS;
  destruct (isUnder100k (calculations s)).

Lemma paidHours_order (s : State.t) (r := calculations s) :
  0 <= paidHours3To4Years r /\
  paidHours3To4Years r <= paidHours9MonthsTo3Years r /\
  paidHours9MonthsTo3Years r <= Qmax 0 (State.nurseryHoursPerWeek s).
Proof. subst r. by_eligibility s; repeat split; split_walk; lra. Qed.

(** X6: the employer's percentage only shows in the two pension figures it is
    reported in: taxable income, tax, National Insurance, the nursery bill and
    take-home pay are the same whatever it is. *)
Theorem employer_pension_only_reported (s : State.t) (x : Q) :
  let r := calculations s in
  let r' := calculations (withEmployerPensionPercent s x) in
  taxableIncome r' = taxableIncome r /\
  tax r' = tax r /\
  nationalInsurance r' = nationalInsurance r /\
  nurseryAnnualCost r' = nurseryAnnualCost r /\
  takeHome r' = takeHome r /\
  employeePensionContribution r' = employeePensionContribution r /\
  employerPensionContribution r' = grossIncome r * x / 100 /\
  totalPensionContribution r' =
    employeePensionContribution r + grossIncome r * x / 100.
Proof. intros r r'. repeat split. Qed.

(** X7: paid hours are never negative, a child of 3 to 4 years is never
    charged more hours than a child of 9 months to 3 years, and nobody is
    charged more than the hours asked for; a cohort whose free hours cover
    the hours asked for is charged none. *)
Theorem paidHours_bounds (s : State.t) :
  let r := calculations s in
  0 <= paidHours3To4Years r /\
  paidHours3To4Years r <= paidHours9MonthsTo3Years r /\
  paidHours9MonthsTo3Years r <= Qmax 0 (State.nurseryHoursPerWeek s) /\
  (State.nurseryHoursPerWeek s <= freeHours9MonthsTo3Years r ->
     paidHours9MonthsTo3Years r == 0) /\
  (State.nurseryHoursPerWeek s <= freeHours3To4Years r ->
     paidHours3To4Years r == 0).
Proof.
  intros r. subst r. by_eligibility s; repeat split; intros; split_walk; lra.
Qed.

Lemma paidHours_bounds_witness :
  (State.nurseryHoursPerWeek (State.mk 50000 0 5 3 0 0 12 20 1 1)
     <= freeHours9MonthsTo3Years (calculations (State.mk 50000 0 5 3 0 0 12 20 1 1))
   /\ paidHours9MonthsTo3Years
        (calculations (State.mk 50000 0 5 3 0 0 12 20 1 1)) == 0) /\
  (State.nurseryHoursPerWeek (State.mk 120000 0 5 3 0 0 12 10 1 1)
     <= freeHours3To4Years (calculations (State.mk 120000 0 5 3 0 0 12 10 1 1))
   /\ paidHours3To4Years
        (calculations (State.mk 120000 0 5 3 0 0 12 10 1 1)) == 0).
Proof.
  split.
  - assert (H : State.nurseryHoursPerWeek (State.mk 50000 0 5 3 0 0 12 20 1 1)
       <= freeHours9MonthsTo3Years
            (calculations (State.mk 50000 0 5 3 0 0 12 20 1 1)))
      by (vm_compute; discriminate).
    split; [exact H|].
    exact (proj1 (proj2 (proj2 (proj2
      (paidHours_bounds (State.mk 50000 0 5 3 0 0 12 20 1 1))))) H).
  - assert (H : State.nurseryHoursPerWeek (State.mk 120000 0 5 3 0 0 12 10 1 1)
       <= freeHours3To4Years
            (calculations (State.mk 120000 0 5 3 0 0 12 10 1 1)))
      by (vm_compute; discriminate).
    split; [exact H|].
    exact (proj2 (proj2 (proj2 (proj2
      (paidHours_bounds (State.mk 120000 0 5 3 0 0 12 10 1 1))))) H).
Defined.

Lemma product_nonneg (a b c : Q) : 0 <= a -> 0 <= b -> 0 <= c -> 0 <= a * b * 38 * c.
Proof.
  intros Ha Hb Hc.
  assert (0 <= a * b) by (apply Qmult_le_0_compat; assumption).
  assert (0 <= a * b * 38) by lra.
  apply Qmult_le_0_compat; assumption.
Qed.

Lemma product_mono (a a' b c : Q) :
  a <= a' -> 0 <= b -> 0 <= c -> a * b * 38 * c <= a' * b * 38 * c.
Proof.
  intros Ha Hb Hc.
  assert (H : 0 <= (a' - a) * b * 38 * c) by (apply product_nonneg; lra).
  lra.
Qed.

(** X8: with a non-negative hourly cost and non-negative head counts, each
    cohort's bill lies between 0 and the bill for all the hours asked for at
    full price. *)
Theorem nursery_cost_bounds (s : State.t) :
  let r := calculations s in
  let full := Qmax 0 (State.nurseryHoursPerWeek s) * State.nurseryCostPerHour s
              * SCHOOL_WEEKS_PER_YEAR in
  0 <= State.nurseryCostPerHour s ->
  0 <= State.children9MonthsTo3Years s ->
  0 <= State.children3To4Years s ->
  0 <= cost9MonthsTo3Years r <= full * State.children9MonthsTo3Years s /\
  0 <= cost3To4Years r <= full * State.children3To4Years s /\
  0 <= nurseryAnnualCost r
    <= full * (State.children9MonthsTo3Years s + State.children3To4Years s).
Proof.
  intros r full Hc Hy Hm. subst r full.
  destruct (paidHours_order s) as (P3 & P39 & P9).
  rewrite nurseryAnnualCost_unfold, cost9MonthsTo3Years_unfold,
    cost3To4Years_unfold.
  unfold SCHOOL_WEEKS_PER_YEAR.
  set (p9 := paidHours9MonthsTo3Years (calculations s)) in *.
  set (p3 := paidHours3To4Years (calculations s)) in *.
  set (h := Qmax 0 (State.nurseryHoursPerWeek s)) in *.
  set (c := State.nurseryCostPerHour s) in *.
  set (y := State.children9MonthsTo3Years s) in *.
  set (m := State.children3To4Years s) in *.
  pose proof (product_nonneg p9 c y ltac:(lra) Hc Hy).
  pose proof (product_nonneg p3 c m P3 Hc Hm).
  pose proof (product_mono p9 h c y P9 Hc Hy).
  pose proof (product_mono p3 h c m ltac:(lra) Hc Hm).
  repeat split; lra.
Qed.

Lemma nursery_cost_bounds_witness :
  0 <= State.nurseryCostPerHour State.initial /\
  0 <= State.children9MonthsTo3Years State.initial /\
  0 <= State.children3To4Years State.initial /\
  0 <= nurseryAnnualCost (calculations State.initial)
    <= Qmax 0 (State.nurseryHoursPerWeek State.initial)
       * State.nurseryCostPerHour State.initial * SCHOOL_WEEKS_PER_YEAR
       * (State.children9MonthsTo3Years State.initial
          + State.children3To4Years State.initial).
Proof.
  assert (Hc : 0 <= State.nurseryCostPerHour State.initial)
    by (cbn; lra).
  assert (Hy : 0 <= State.children9MonthsTo3Years State.initial)
    by (cbn; lra).
  assert (Hm : 0 <= State.children3To4Years State.initial)
    by (cbn; lra).
  split; [exact Hc|]. split; [exact Hy|]. split; [exact Hm|].
  exact (proj2 (proj2 (nursery_cost_bounds State.initial Hc Hy Hm))).
Defined.

(** X9: when the taxable income is not negative, take-home pay is at least
    53% of it and at most all of it, less the nursery bill. *)
Theorem takeHome_bounds (s : State.t) :
  let r := calculations s in
  0 <= taxableIncome r ->
  0.53 * taxableIncome r - nurseryAnnualCost r <= takeHome r
    <= taxableIncome r - nurseryAnnualCost r.
Proof.
  intros r H. subst r. rewrite takeHome_from_taxable.
  pose proof (deductions_at_most_47_percent _ H). lra.
Qed.

Lemma takeHome_bounds_witness :
  0 <= taxableIncome (calculations State.initial) /\
  0.53 * taxableIncome (calculations State.initial)
    - nurseryAnnualCost (calculations State.initial)
  <= takeHome (calculations State.initial)
  <= taxableIncome (calculations State.initial)
     - nurseryAnnualCost (calculations State.initial).
Proof.
  assert (H : 0 <= taxableIncome (calculations State.initial))
    by (vm_compute; discriminate).
  split; [exact H|]. exact (takeHome_bounds State.initial H).
Defined.

(** The nursery bill of a state with another salary, from the eligibility
    flag that salary gives. *)
Lemma nurseryAnnualCost_withSalary (s : State.t) (x : Q) :
  nurseryAnnualCost (calculations (withSalary s x)) =
  Qmax 0 (State.nurseryHoursPerWeek s
          - (if isUnder100k (calculations (withSalary s x)) then 30 else 0))
  * State.nurseryCostPerHour s * 38 * State.children9MonthsTo3Years s
  + Qmax 0 (State.nurseryHoursPerWeek s
            - (if isUnder100k (calculations (withSalary s x)) then 30 else 15))
    * State.nurseryCostPerHour s * 38 * State.children3To4Years s.
Proof. reflexivity. Qed.

Lemma paidHours_withSalary (s : State.t) (x : Q) :
  paidHours9MonthsTo3Years (calculations (withSalary s x)) =
  Qmax 0 (State.nurseryHoursPerWeek s
          - (if isUnder100k (calculations (withSalary s x)) then 30 else 0)) /\
  paidHours3To4Years (calculations (withSalary s x)) =
  Qmax 0 (State.nurseryHoursPerWeek s
          - (if isUnder100k (calculations (withSalary s x)) then 30 else 15)).
Proof. split; reflexivity. Qed.

Lemma cost_withSalary (s : State.t) (x : Q) :
  cost9MonthsTo3Years (calculations (withSalary s x)) =
  paidHours9MonthsTo3Years (calculations (withSalary s x))
  * State.nurseryCostPerHour s * 38 * State.children9MonthsTo3Years s /\
  cost3To4Years (calculations (withSalary s x)) =
  paidHours3To4Years (calculations (withSalary s x))
  * State.nurseryCostPerHour s * 38 * State.children3To4Years s.
Proof. split; reflexivity. Qed.

(** X10: when a change of salary takes the taxable income from below
    100,000 to 100,000 or more, the hours paid for each week rise by
    min(hours, 30) for a child of 9 months to 3 years and by
    min(hours, 30) - min(hours, 15) for a child of 3 to 4 years, and, the
    hourly cost and the head counts being non-negative, neither cohort's
    bill nor their sum falls. *)
Theorem eligibility_loss_raises_bill (s : State.t) (a b : Q) :
  isUnder100k (calculations (withSalary s a)) = true ->
  isUnder100k (calculations (withSalary s b)) = false ->
  0 <= State.nurseryHoursPerWeek s ->
  0 <= State.nurseryCostPerHour s ->
  0 <= State.children9MonthsTo3Years s ->
  0 <= State.children3To4Years s ->
  paidHours9MonthsTo3Years (calculations (withSalary s b))
  - paidHours9MonthsTo3Years (calculations (withSalary s a))
  == Qmin (State.nurseryHoursPerWeek s) 30 /\
  paidHours3To4Years (calculations (withSalary s b))
  - paidHours3To4Years (calculations (withSalary s a))
  == Qmin (State.nurseryHoursPerWeek s) 30
     - Qmin (State.nurseryHoursPerWeek s) 15 /\
  cost9MonthsTo3Years (calculations (withSalary s a))
  <= cost9MonthsTo3Years (calculations (withSalary s b)) /\
  cost3To4Years (calculations (withSalary s a))
  <= cost3To4Years (calculations (withSalary s b)) /\
  nurseryAnnualCost (calculations (withSalary s a))
  <= nurseryAnnualCost (calculations (withSalary s b)).
Proof.
  intros Ha Hb Hh Hc Hy Hm.
  destruct (cost_withSalary s a) as [C9a C3a].
  destruct (cost_withSalary s b) as [C9b C3b].
  destruct (paidHours_withSalary s a) as [P9a P3a].
  destruct (paidHours_withSalary s b) as [P9b P3b].
  rewrite Ha in P9a, P3a. rewrite Hb in P9b, P3b.
  set (h := State.nurseryHoursPerWeek s) in *.
  assert (J9 : paidHours9MonthsTo3Years (calculations (withSalary s b))
               - paidHours9MonthsTo3Years (calculations (withSalary s a))
               == Qmin h 30)
    by (rewrite P9a, P9b; split_walk; lra).
  assert (J3 : paidHours3To4Years (calculations (withSalary s b))
               - paidHours3To4Years (calculations (withSalary s a))
               == Qmin h 30 - Qmin h 15)
    by (rewrite P3a, P3b; split_walk; lra).
  assert (M9 : paidHours9MonthsTo3Years (calculations (withSalary s a))
               <= paidHours9MonthsTo3Years (calculations (withSalary s b)))
    by (rewrite P9a, P9b; split_walk; lra).
  assert (M3 : paidHours3To4Years (calculations (withSalary s a))
               <= paidHours3To4Years (calculations (withSalary s b)))
    by (rewrite P3a, P3b; split_walk; lra).
  pose proof (product_mono _ _ _ _ M9 Hc Hy) as L9.
  pose proof (product_mono _ _ _ _ M3 Hc Hm) as L3.
  rewrite <- C9a, <- C9b in L9. rewrite <- C3a, <- C3b in L3.
  split; [exact J9|]. split; [exact J3|].
  split; [exact L9|]. split; [exact L3|].
  rewrite !nurseryAnnualCost_unfold. lra.
Qed.

Lemma eligibility_loss_raises_bill_witness :
  isUnder100k (calculations (withSalary State.initial 105000)) = true /\
  isUnder100k (calculations (withSalary State.initial 106000)) = false /\
  0 <= State.nurseryHoursPerWeek State.initial /\
  0 <= State.nurseryCostPerHour State.initial /\
  0 <= State.children9MonthsTo3Years State.initial /\
  0 <= State.children3To4Years State.initial /\
  paidHours9MonthsTo3Years (calculations (withSalary State.initial 106000))
  - paidHours9MonthsTo3Years (calculations (withSalary State.initial 105000))
  == Qmin (State.nurseryHoursPerWeek State.initial) 30 /\
  nurseryAnnualCost (calculations (withSalary State.initial 105000))
  <= nurseryAnnualCost (calculations (withSalary State.initial 106000)).
Proof.
  assert (Ha : isUnder100k (calculations (withSalary State.initial 105000)) = true)
    by reflexivity.
  assert (Hb : isUnder100k (calculations (withSalary State.initial 106000)) = false)
    by reflexivity.
  assert (Hh : 0 <= State.nurseryHoursPerWeek State.initial) by (cbn; lra).
  assert (Hc : 0 <= State.nurseryCostPerHour State.initial) by (cbn; lra).
  assert (Hy : 0 <= State.children9MonthsTo3Years State.initial) by (cbn; lra).
  assert (Hm : 0 <= State.children3To4Years State.initial) by (cbn; lra).
  split; [exact Ha|]. split; [exact Hb|]. split; [exact Hh|].
  split; [exact Hc|]. split; [exact Hy|]. split; [exact Hm|].
  destruct (eligibility_loss_raises_bill State.initial 105000 106000
              Ha Hb Hh Hc Hy Hm) as (J9 & _ & _ & _ & N).
  split; [exact J9|exact N].
Defined.



Lemma taxableIncome_withSalary (s : State.t) (x : Q) :
  taxableIncome (calculations (withSalary s x)) ==
  (x + State.bonus s) * (1 - State.pensionContributionPercent s * 0.01)
  - (State.electricCarSacrifice s + State.bikeToWorkSacrifice s).
Proof.
  rewrite taxableIncome_unfold.
  cbn [calculations grossIncome employeePensionContribution totalSalarySacrifice
       withSalary State.salary State.bonus State.pensionContributionPercent
       State.electricCarSacrifice State.bikeToWorkSacrifice].
  rewrite div100. ring.
Qed.

(** X12: with an employee pension percentage of at most 40, the top of its
    slider, a pay rise of at least a penny that leaves the childcare
    eligibility as it was raises the taxable income and the take-home pay,
    and at least half of the extra taxable income is taken home. *)
Theorem pay_rise_within_eligibility (s : State.t) (a b : Q) :
  State.pensionContributionPercent s <= 40 ->
  a + 0.01 <= b ->
  isUnder100k (calculations (withSalary s a))
  = isUnder100k (calculations (withSalary s b)) ->
  taxableIncome (calculations (withSalary s a))
    < taxableIncome (calculations (withSalary s b)) /\
  takeHome (calculations (withSalary s a))
    < takeHome (calculations (withSalary s b)) /\
  0.5 * (taxableIncome (calculations (withSalary s b))
         - taxableIncome (calculations (withSalary s a)))
  <= takeHome (calculations (withSalary s b))
     - takeHome (calculations (withSalary s a)).
Proof.
  intros Hp Hab He.
  assert (Hti : taxableIncome (calculations (withSalary s a))
                < taxableIncome (calculations (withSalary s b))).
  { rewrite !taxableIncome_withSalary.
    set (p := State.pensionContributionPercent s) in *.
    assert (0 < (b - a) * (1 - p * 0.01))
      by (apply Qmult_lt_0_compat; lra).
    lra. }
  assert (Hle : taxableIncome (calculations (withSalary s a))
                <= taxableIncome (calculations (withSalary s b))) by lra.
  pose proof (deductions_marginal_rate_aux _ _ Hle) as D.
  split; [exact Hti|].
  rewrite !takeHome_from_taxable, !nurseryAnnualCost_withSalary, He.
  split; lra.
Qed.

Lemma pay_rise_within_eligibility_witness :
  State.pensionContributionPercent State.initial <= 40 /\
  50000 + 0.01 <= 60000 /\
  isUnder100k (calculations (withSalary State.initial 50000))
  = isUnder100k (calculations (withSalary State.initial 60000)) /\
  taxableIncome (calculations (withSalary State.initial 50000))
    < taxableIncome (calculations (withSalary State.initial 60000)) /\
  takeHome (calculations (withSalary State.initial 50000))
    < takeHome (calculations (withSalary State.initial 60000)) /\
  0.5 * (taxableIncome (calculations (withSalary State.initial 60000))
         - taxableIncome (calculations (withSalary State.initial 50000)))
  <= takeHome (calculations (withSalary State.initial 60000))
     - takeHome (calculations (withSalary State.initial 50000)).
Proof.
  assert (Hp : State.pensionContributionPercent State.initial <= 40)
    by (cbn; lra).
  assert (Hab : 50000 + 0.01 <= 60000) by lra.
  split; [exact Hp|]. split; [exact Hab|]. split; [reflexivity|].
  exact (pay_rise_within_eligibility State.initial 50000 60000
           Hp Hab eq_refl).
Defined.

(** ** The earlier version against the current one *)

Lemma flat_nurseryAnnualCost_unfold (s : State.t) :
  FlatHours.nurseryAnnualCost (FlatHours.calculations (flatten s)) =
  paidHours9MonthsTo3Years (calculations s) * State.nurseryCostPerHour s
  * SCHOOL_WEEKS_PER_YEAR
  * (State.children9MonthsTo3Years s + State.children3To4Years s).
Proof. reflexivity. Qed.

Lemma flat_takeHome_unfold (s : State.t) :
  FlatHours.takeHome (FlatHours.calculations (flatten s)) =
  grossIncome (calculations s) - employeePensionContribution (calculations s)
  - tax (calculations s) - nationalInsurance (calculations s)
  - totalSalarySacrifice (calculations s)
  - FlatHours.nurseryAnnualCost (FlatHours.calculations (flatten s)).
Proof. reflexivity. Qed.

Lemma flat_nursery_difference (s : State.t) :
  FlatHours.nurseryAnnualCost (FlatHours.calculations (flatten s))
  - nurseryAnnualCost (calculations s)
  == (paidHours9MonthsTo3Years (calculations s)
      - paidHours3To4Years (calculations s))
     * State.nurseryCostPerHour s * 38 * State.children3To4Years s.
Proof.
  rewrite flat_nurseryAnnualCost_unfold, nurseryAnnualCost_unfold,
    cost9MonthsTo3Years_unfold, cost3To4Years_unfold.
  unfold SCHOOL_WEEKS_PER_YEAR. ring.
Qed.

(** X13: the earlier version of the page, given the same inputs with all the
    children counted together, computes the same gross income, taxable income,
    tax, National Insurance, employee pension and the free and paid hours of
    the younger cohort; when the employer's percentage is 3 and no child is 3
    to 4 years old it also computes the same employer pension, total pension,
    nursery bill and take-home pay. *)
Theorem flat_version_agrees (s : State.t) :
  let r := calculations s in
  let f := FlatHours.calculations (flatten s) in
  (FlatHours.grossIncome f = grossIncome r /\
   FlatHours.taxableIncome f = taxableIncome r /\
   FlatHours.tax f = tax r /\
   FlatHours.nationalInsurance f = nationalInsurance r /\
   FlatHours.employeePensionContribution f = employeePensionContribution r /\
   FlatHours.freeHoursPerChild f = freeHours9MonthsTo3Years r /\
   FlatHours.paidHoursPerChild f = paidHours9MonthsTo3Years r) /\
  (State.employerPensionPercent s == 3 ->
   FlatHours.employerPensionContribution f == employerPensionContribution r /\
   FlatHours.totalPensionContribution f == totalPensionContribution r) /\
  (State.children3To4Years s == 0 ->
   FlatHours.nurseryAnnualCost f == nurseryAnnualCost r /\
   FlatHours.takeHome f == takeHome r).
Proof.
  intros r f. subst r f. split; [repeat split|]. split.
  - intros He.
    cbn [FlatHours.calculations FlatHours.employerPensionContribution
         FlatHours.totalPensionContribution calculations
         employerPensionContribution totalPensionContribution flatten
         FlatHours.State.salary FlatHours.State.bonus
         FlatHours.State.pensionContributionPercent].
    rewrite He. split; reflexivity.
  - intros Hm. pose proof (flat_nursery_difference s) as D.
    rewrite Hm in D.
    rewrite flat_takeHome_unfold, takeHome_unfold. split; lra.
Qed.

Lemma flat_version_agrees_witness :
  (State.employerPensionPercent State.initial == 3 /\
   FlatHours.totalPensionContribution
     (FlatHours.calculations (flatten State.initial))
   == totalPensionContribution (calculations State.initial)) /\
  (State.children3To4Years State.initial == 0 /\
   FlatHours.takeHome (FlatHours.calculations (flatten State.initial))
   == takeHome (calculations State.initial)).
Proof.
  split.
  - assert (H : State.employerPensionPercent State.initial == 3) by reflexivity.
    split; [exact H|].
    exact (proj2 (proj1 (proj2 (flat_version_agrees State.initial)) H)).
  - assert (H : State.children3To4Years State.initial == 0) by reflexivity.
    split; [exact H|].
    exact (proj2 (proj2 (proj2 (flat_version_agrees State.initial)) H)).
Defined.

(** X14: for a household whose children are all 3 to 4 years old, with a
    non-negative hourly cost and head count, the current version never bills
    more for the nursery than the earlier version does for the same inputs,
    and never leaves less take-home pay. *)
Theorem older_children_never_billed_more (s : State.t) :
  let r := calculations s in
  let f := FlatHours.calculations (flatten s) in
  State.children9MonthsTo3Years s == 0 ->
  0 <= State.nurseryCostPerHour s ->
  0 <= State.children3To4Years s ->
  nurseryAnnualCost r <= FlatHours.nurseryAnnualCost f /\
  FlatHours.takeHome f <= takeHome r.
Proof.
  intros r f Hy Hc Hm. subst r f.
  pose proof (flat_nursery_difference s) as D.
  destruct (paidHours_order s) as (_ & P & _).
  pose proof (product_nonneg
    (paidHours9MonthsTo3Years (calculations s)
     - paidHours3To4Years (calculations s)) _ _ ltac:(lra) Hc Hm).
  split; [lra|].
  rewrite flat_takeHome_unfold, takeHome_unfold. lra.
Qed.

Lemma older_children_never_billed_more_witness :
  State.children9MonthsTo3Years (State.mk 120000 0 5 3 0 0 12 40 0 2) == 0 /\
  0 <= State.nurseryCostPerHour (State.mk 120000 0 5 3 0 0 12 40 0 2) /\
  0 <= State.children3To4Years (State.mk 120000 0 5 3 0 0 12 40 0 2) /\
  nurseryAnnualCost (calculations (State.mk 120000 0 5 3 0 0 12 40 0 2))
  <= FlatHours.nurseryAnnualCost
       (FlatHours.calculations (flatten (State.mk 120000 0 5 3 0 0 12 40 0 2))) /\
  FlatHours.takeHome
    (FlatHours.calculations (flatten (State.mk 120000 0 5 3 0 0 12 40 0 2)))
  <= takeHome (calculations (State.mk 120000 0 5 3 0 0 12 40 0 2)).
Proof.
  assert (Hy : State.children9MonthsTo3Years
                 (State.mk 120000 0 5 3 0 0 12 40 0 2) == 0) by reflexivity.
  assert (Hc : 0 <= State.nurseryCostPerHour (State.mk 120000 0 5 3 0 0 12 40 0 2))
    by (cbn; lra).
  assert (Hm : 0 <= State.children3To4Years (State.mk 120000 0 5 3 0 0 12 40 0 2))
    by (cbn; lra).
  split; [exact Hy|]. split; [exact Hc|]. split; [exact Hm|].
  exact (older_children_never_billed_more
           (State.mk 120000 0 5 3 0 0 12 40 0 2) Hy Hc Hm).
Defined.

(** ** The chart *)

Lemma Qgtb_true (x y : Q) : Qgtb x y = true <-> y < x.
Proof.
  unfold Qgtb. destruct (Qle_bool x y) eqn:E; cbn [negb].
  - apply Qle_bool_iff in E. split; [discriminate | lra].
  - apply Qle_bool_false in E. split; trivial.
Qed.

(** The filter lets the first three bars through whatever their values, and
    decides on the others by their value alone. *)
Lemma chartData_unfold (data : SalaryChart.SalaryData) :
  SalaryChart.chartData data =
  firstn 3 (SalaryChart.allBars data)
  ++ filter (fun item => Qgtb (SalaryChart.value item) 0)
       (skipn 3 (SalaryChart.allBars data)).
Proof.
  unfold SalaryChart.chartData, SalaryChart.allBars.
  cbn [filter firstn skipn app].
  unfold SalaryChart.keeps at 1 2 3.
  cbn [SalaryChart.name SalaryChart.bar].
  change (SalaryChart.includes _ "Earnings") with true.
  change (SalaryChart.includes _ "Taxable Income") with true.
  change (SalaryChart.includes _ "Take-Home") with true.
  rewrite !orb_true_r.
  repeat f_equal.
  unfold SalaryChart.keeps.
  cbn [filter SalaryChart.name SalaryChart.value SalaryChart.bar].
  change (SalaryChart.includes _ "Total Pension") with false.
  change (SalaryChart.includes _ "Tax") with false.
  change (SalaryChart.includes _ "National Insurance") with false.
  change (SalaryChart.includes _ "Electric Car") with false.
  change (SalaryChart.includes _ "Bike to Work") with false.
  change (SalaryChart.includes _ "Nursery Costs") with false.
  rewrite !orb_false_r. reflexivity.
Qed.

Lemma keeps_spec (item : SalaryChart.Item) :
  SalaryChart.keeps item = true <->
  0 < SalaryChart.value item \/
  In (SalaryChart.name item) ["Earnings"; "Taxable Income"; "Take-Home"]%string.
Proof.
  unfold SalaryChart.keeps, SalaryChart.includes.
  rewrite orb_true_iff, Qgtb_true, existsb_exists.
  split; (intros [H|H]; [left; exact H|right]).
  - destruct H as (x & Hin & Heq). apply String.eqb_eq in Heq.
    subst x. exact Hin.
  - exists (SalaryChart.name item). split; [exact H|apply String.eqb_refl].
Qed.

(** X15: whatever the figures, the chart starts with the bars Earnings,
    Taxable Income and Take-Home, in this order and with the gross income, the
    taxable income and the take-home pay as values; it has at least these
    three bars and at most nine. *)
Theorem chartData_fixed_bars (data : SalaryChart.SalaryData) :
  firstn 3 (SalaryChart.chartData data) = firstn 3 (SalaryChart.allBars data) /\
  map SalaryChart.name (firstn 3 (SalaryChart.chartData data))
  = ["Earnings"; "Taxable Income"; "Take-Home"]%string /\
  map SalaryChart.value (firstn 3 (SalaryChart.chartData data))
  = [SalaryChart.grossIncome data; SalaryChart.taxableIncome data;
     SalaryChart.takeHome data] /\
  (3 <= List.length (SalaryChart.chartData data) <= 9)%nat.
Proof.
  rewrite chartData_unfold.
  assert (L : (List.length (filter (fun item => Qgtb (SalaryChart.value item) 0)
                 (skipn 3 (SalaryChart.allBars data))) <= 6)%nat)
    by apply filter_length_le.
  repeat split; try reflexivity.
  - rewrite length_app.
    change (List.length (firstn 3 (SalaryChart.allBars data))) with 3%nat.
    lia.
  - rewrite length_app.
    change (List.length (firstn 3 (SalaryChart.allBars data))) with 3%nat.
    lia.
Qed.

(** X16: of the other bars (Total Pension, Tax, National Insurance, Electric
    Car, Bike to Work, Nursery Costs) the chart shows exactly those whose
    value is positive: a bar in the chart is one of the three fixed bars or
    has a positive value, and every bar with a positive value is in the
    chart. *)
Theorem chartData_other_bars (data : SalaryChart.SalaryData)
    (item : SalaryChart.Item) :
  (In item (SalaryChart.chartData data) ->
   In (SalaryChart.name item) ["Earnings"; "Taxable Income"; "Take-Home"]%string
   \/ 0 < SalaryChart.value item) /\
  (In item (SalaryChart.allBars data) -> 0 < SalaryChart.value item ->
   In item (SalaryChart.chartData data)) /\
  (In item (skipn 3 (SalaryChart.allBars data)) ->
   SalaryChart.value item <= 0 ->
   ~ In item (SalaryChart.chartData data)).
Proof.
  unfold SalaryChart.chartData. rewrite filter_In, keeps_spec.
  split; [|split].
  - intros [_ [H|H]]; [right|left]; exact H.
  - intros Hin Hpos. split; [exact Hin|left; exact Hpos].
  - intros Hin Hle [_ [H|H]]; [lra|].
    cbn [skipn SalaryChart.allBars] in Hin.
    repeat (destruct Hin as [<-|Hin];
            [cbn in H; intuition discriminate|]).
    destruct Hin.
Qed.

Lemma chartData_other_bars_witness :
  let data := chartProps (calculations State.initial) in
  let item := SalaryChart.bar "Tax" (SalaryChart.tax data) "tax" "#f59e0b" in
  In item (SalaryChart.allBars data) /\ 0 < SalaryChart.value item /\
  In item (SalaryChart.chartData data).
Proof.
  intros data item.
  assert (Hin : In item (SalaryChart.allBars data))
    by (do 4 right; left; reflexivity).
  assert (Hpos : 0 < SalaryChart.value item) by (vm_compute; reflexivity).
  split; [exact Hin|]. split; [exact Hpos|].
  exact (proj1 (proj2 (chartData_other_bars data item)) Hin Hpos).
Defined.

(** X17: the chart's high-earner note is rendered exactly when the engine
    finds the household not eligible, and the Taxable Income bar is then red
    (green otherwise).  When the note is rendered a child of 9 months to 3
    years gets no free hours, but a child of 3 to 4 years still gets 15. *)
Theorem highEarner_note_matches_eligibility (s : State.t) :
  let r := calculations s in
  let data := chartProps r in
  SalaryChart.highEarnerWarning data = negb (isUnder100k r) /\
  map SalaryChart.color (firstn 1 (skipn 1 (SalaryChart.chartData data)))
  = [if isUnder100k r then "#22c55e" else "#ef4444"]%string /\
  (SalaryChart.highEarnerWarning data = true ->
   freeHours9MonthsTo3Years r = 0 /\ freeHours3To4Years r = 15) /\
  (SalaryChart.highEarnerWarning data = false ->
   freeHours9MonthsTo3Years r = 30 /\ freeHours3To4Years r = 30).
Proof.
  intros r data.
  assert (E : SalaryChart.highEarnerWarning data = negb (isUnder100k r)).
  { subst data r. unfold SalaryChart.highEarnerWarning.
    cbn [chartProps SalaryChart.taxableIncome isUnder100k calculations
         taxableIncome].
    unfold Qltb, CHILDCARE_FREE_HOURS_THRESHOLD.
    rewrite negb_involutive. reflexivity. }
  split; [exact E|]. split.
  - rewrite chartData_unfold.
    cbn [firstn skipn app map SalaryChart.allBars SalaryChart.color
         SalaryChart.bar].
    fold (SalaryChart.highEarnerWarning data). rewrite E.
    destruct (isUnder100k r); reflexivity.
  - rewrite E. subst r.
    rewrite freeHours9MonthsTo3Years_unfold, freeHours3To4Years_unfold.
    destruct (isUnder100k (calculations s)); cbn [negb];
      split; intros H; try discriminate H; split; reflexivity.
Qed.

Lemma highEarner_note_matches_eligibility_witness :
  (SalaryChart.highEarnerWarning
     (chartProps (calculations (withSalary State.initial 120000))) = true /\
   freeHours9MonthsTo3Years (calculations (withSalary State.initial 120000)) = 0 /\
   freeHours3To4Years (calculations (withSalary State.initial 120000)) = 15) /\
  (SalaryChart.highEarnerWarning
     (chartProps (calculations State.initial)) = false /\
   freeHours9MonthsTo3Years (calculations State.initial) = 30 /\
   freeHours3To4Years (calculations State.initial) = 30).
Proof.
  split.
  - assert (H : SalaryChart.highEarnerWarning
       (chartProps (calculations (withSalary State.initial 120000))) = true)
      by reflexivity.
    split; [exact H|].
    exact (proj1 (proj2 (proj2 (highEarner_note_matches_eligibility
                                  (withSalary State.initial 120000)))) H).
  - assert (H : SalaryChart.highEarnerWarning
       (chartProps (calculations State.initial)) = false)
      by reflexivity.
    split; [exact H|].
    exact (proj2 (proj2 (proj2 (highEarner_note_matches_eligibility
                                  State.initial))) H).
Defined.

(** X18: the high-earner note, which announces a reduced personal allowance,
    is rendered from a taxable income of exactly 100,000 on, while the
    allowance computed by calculateTax is below 12,570 only above 100,000:
    at exactly 100,000 the note is rendered and the allowance is whole. *)
Theorem highEarner_note_and_allowance (s : State.t) :
  let r := calculations s in
  let data := chartProps r in
  (SalaryChart.highEarnerWarning data = true <-> 100000 <= taxableIncome r) /\
  (personalAllowance (taxableIncome r) < 12570 <-> 100000 < taxableIncome r) /\
  (taxableIncome r == 100000 ->
   SalaryChart.highEarnerWarning data = true /\
   personalAllowance (taxableIncome r) = 12570).
Proof.
  intros r data.
  assert (W : SalaryChart.highEarnerWarning data = true
              <-> 100000 <= taxableIncome r) by apply Qle_bool_iff.
  assert (A : personalAllowance (taxableIncome r) < 12570
              <-> 100000 < taxableIncome r).
  { unfold personalAllowance, Qgtb, Math_min.
    destruct (Qle_bool (taxableIncome r) 100000) eqn:E; cbn [negb].
    - apply Qle_bool_iff in E. split; intros; lra.
    - apply Qle_bool_false in E.
      destruct (Qmin_cases 12570 ((taxableIncome r - 100000) / 2))
        as [[Hm ->]|[Hm ->]]; [split; intros; lra|].
      rewrite half_spec in *. split; intros; lra. }
  split; [exact W|]. split; [exact A|].
  intros H. split; [apply W; lra|].
  unfold personalAllowance, Qgtb.
  rewrite Qle_bool_true by lra. reflexivity.
Qed.

Lemma highEarner_note_and_allowance_witness :
  taxableIncome (calculations (State.mk 100000 0 0 3 0 0 12 40 1 0)) == 100000 /\
  SalaryChart.highEarnerWarning
    (chartProps (calculations (State.mk 100000 0 0 3 0 0 12 40 1 0))) = true /\
  personalAllowance
    (taxableIncome (calculations (State.mk 100000 0 0 3 0 0 12 40 1 0))) = 12570.
Proof.
  assert (H : taxableIncome (calculations (State.mk 100000 0 0 3 0 0 12 40 1 0))
              == 100000) by reflexivity.
  split; [exact H|].
  exact (proj2 (proj2 (highEarner_note_and_allowance
                         (State.mk 100000 0 0 3 0 0 12 40 1 0))) H).
Defined.

(** Case analysis on a [Math.max] none of whose arguments is a [Math.max]. *)
Ltac innermost_max :=
  match goal with
  | |- context [Qmax ?a ?b] =>
      lazymatch a with
      | context [Qmax _ _] => fail
      | _ => destruct (Qmax_cases a b) as [[? ->]|[? ->]]; prune
      end
  end.

Lemma maxValue_closed (data : SalaryChart.SalaryData) :
  SalaryChart.maxValue data == Qmax (SalaryChart.grossIncome data) 125140.
Proof.
  unfold SalaryChart.maxValue, SalaryChart.Math_max_of,
    SalaryChart.TAX_THRESHOLDS, SalaryChart.PENSION_ALLOWANCE.
  cbn [app fold_left]. repeat innermost_max; lra.
Qed.

(** X19: maxValue, from which the Y axis is drawn, is the larger of the gross
    income and 125,140: it is never below the gross income, any of the four
    tax thresholds or the pension allowance. *)
Theorem maxValue_covers_thresholds (data : SalaryChart.SalaryData) :
  SalaryChart.maxValue data == Qmax (SalaryChart.grossIncome data) 125140 /\
  SalaryChart.grossIncome data <= SalaryChart.maxValue data /\
  Forall (fun t => t <= SalaryChart.maxValue data) SalaryChart.TAX_THRESHOLDS /\
  SalaryChart.PENSION_ALLOWANCE <= SalaryChart.maxValue data.
Proof.
  pose proof (maxValue_closed data) as E.
  destruct (Qmax_cases (SalaryChart.grossIncome data) 125140) as [[H M]|[H M]];
    rewrite M in E; unfold SalaryChart.TAX_THRESHOLDS,
      SalaryChart.PENSION_ALLOWANCE;
    (split; [rewrite M; exact E|]); repeat constructor; lra.
Qed.

Lemma pension_unfold (s : State.t) (r := calculations s) :
  employeePensionContribution r
  = grossIncome r * State.pensionContributionPercent s / 100 /\
  employerPensionContribution r
  = grossIncome r * State.employerPensionPercent s / 100 /\
  totalPensionContribution r
  = employeePensionContribution r + employerPensionContribution r.
Proof. repeat split. Qed.

Lemma tax_at_most_positive_part (x : Q) : 0 <= calculateTax x <= Qmax 0 x.
Proof.
  rewrite calculateTax_closed. unfold taxClosed. split; split_walk; lra.
Qed.

Lemma calculateNI_at_most_positive_part (x : Q) : 0 <= calculateNI x <= Qmax 0 x.
Proof.
  rewrite calculateNI_closed. unfold niClosed. split; split_walk; lra.
Qed.

(** X20: with a non-negative gross income, non-negative pension percentages
    that add up to at most 100, and a non-negative salary sacrifice and
    nursery bill, none of the bars Earnings, Taxable Income, Take-Home, Total
    Pension, Tax and National Insurance is higher than maxValue. *)
Theorem main_bars_within_maxValue (s : State.t) (item : SalaryChart.Item) :
  let r := calculations s in
  let data := chartProps r in
  0 <= grossIncome r ->
  0 <= State.pensionContributionPercent s ->
  0 <= State.employerPensionPercent s ->
  State.pensionContributionPercent s + State.employerPensionPercent s <= 100 ->
  0 <= totalSalarySacrifice r ->
  0 <= nurseryAnnualCost r ->
  In item (firstn 6 (SalaryChart.allBars data)) ->
  SalaryChart.value item <= SalaryChart.maxValue data.
Proof.
  intros r data Hg Hp He Hpe Hs Hn Hin.
  assert (Hmax : grossIncome r <= SalaryChart.maxValue data).
  { rewrite maxValue_closed.
    change (SalaryChart.grossIncome data) with (grossIncome r).
    destruct (Qmax_cases (grossIncome r) 125140) as [[? ->]|[? ->]]; lra. }
  set (p := State.pensionContributionPercent s) in *.
  set (e := State.employerPensionPercent s) in *.
  assert (Ep : employeePensionContribution r == grossIncome r * p * 0.01)
    by (subst r p; rewrite (proj1 (pension_unfold s)); apply div100).
  assert (Ee : employerPensionContribution r == grossIncome r * e * 0.01)
    by (subst r e; rewrite (proj1 (proj2 (pension_unfold s))); apply div100).
  assert (Et : totalPensionContribution r
               == employeePensionContribution r + employerPensionContribution r)
    by reflexivity.
  assert (Hgp : 0 <= grossIncome r * p) by (apply Qmult_le_0_compat; lra).
  assert (Hge : 0 <= grossIncome r * e) by (apply Qmult_le_0_compat; lra).
  assert (Hgr : 0 <= grossIncome r * (100 - p - e))
    by (apply Qmult_le_0_compat; lra).
  assert (Eti : taxableIncome r == grossIncome r
                 - employeePensionContribution r - totalSalarySacrifice r)
    by reflexivity.
  assert (Eth : takeHome r == taxableIncome r - calculateTax (taxableIncome r)
                 - calculateNI (taxableIncome r) - nurseryAnnualCost r)
    by apply takeHome_from_taxable.
  pose proof (tax_at_most_positive_part (taxableIncome r)) as Htax.
  pose proof (calculateNI_at_most_positive_part (taxableIncome r)) as Hni.
  assert (Hti : taxableIncome r <= grossIncome r) by lra.
  assert (Hpos : Qmax 0 (taxableIncome r) <= grossIncome r)
    by (destruct (Qmax_cases 0 (taxableIncome r)) as [[? ->]|[? ->]]; lra).
  cbn [firstn SalaryChart.allBars] in Hin.
  repeat (destruct Hin as [<-|Hin]; [cbn [SalaryChart.value SalaryChart.bar]|]);
    [..|destruct Hin].
  - exact Hmax.
  - change (SalaryChart.taxableIncome data) with (taxableIncome r). lra.
  - change (SalaryChart.takeHome data) with (takeHome r). lra.
  - change (SalaryChart.totalPensionContribution data)
      with (totalPensionContribution r). lra.
  - change (SalaryChart.tax data) with (calculateTax (taxableIncome r)). lra.
  - change (SalaryChart.nationalInsurance data)
      with (calculateNI (taxableIncome r)). lra.
Qed.

Lemma main_bars_within_maxValue_witness :
  let r := calculations State.initial in
  let data := chartProps r in
  let item := SalaryChart.bar "Take-Home" (SalaryChart.takeHome data)
                "takehome" "#10b981" in
  0 <= grossIncome r /\
  0 <= State.pensionContributionPercent State.initial /\
  0 <= State.employerPensionPercent State.initial /\
  State.pensionContributionPercent State.initial
    + State.employerPensionPercent State.initial <= 100 /\
  0 <= totalSalarySacrifice r /\
  0 <= nurseryAnnualCost r /\
  In item (firstn 6 (SalaryChart.allBars data)) /\
  SalaryChart.value item <= SalaryChart.maxValue data.
Proof.
  intros r data item.
  assert (Hg : 0 <= grossIncome r) by (vm_compute; discriminate).
  assert (Hp : 0 <= State.pensionContributionPercent State.initial)
    by (vm_compute; discriminate).
  assert (He : 0 <= State.employerPensionPercent State.initial)
    by (vm_compute; discriminate).
  assert (Hpe : State.pensionContributionPercent State.initial
                + State.employerPensionPercent State.initial <= 100)
    by (vm_compute; discriminate).
  assert (Hs : 0 <= totalSalarySacrifice r) by (vm_compute; discriminate).
  assert (Hn : 0 <= nurseryAnnualCost r) by (vm_compute; discriminate).
  assert (Hin : In item (firstn 6 (SalaryChart.allBars data)))
    by (do 2 right; left; reflexivity).
  split; [exact Hg|]. split; [exact Hp|]. split; [exact He|].
  split; [exact Hpe|]. split; [exact Hs|]. split; [exact Hn|].
  split; [exact Hin|].
  exact (main_bars_within_maxValue State.initial item Hg Hp He Hpe Hs Hn Hin).
Defined.

(** X21: every entry the chart draws for the engine's figures is painted
    once: the Total Pension entry leaves the regular bar transparent and is
    drawn as the employee and employer parts, whose heights add up to its
    value; every other entry is drawn as the regular bar in its own colour
    and has no stacked parts. *)
Theorem entries_painted_once (s : State.t) (item : SalaryChart.Item) :
  In item (SalaryChart.chartData (chartProps (calculations s))) ->
  (SalaryChart.type item = "pension"%string /\
   SalaryChart.valueFill item = "transparent"%string /\
   SalaryChart.employeeFill item <> "transparent"%string /\
   SalaryChart.employerFill item <> "transparent"%string /\
   exists ep er,
     SalaryChart.employeePension item = Some ep /\
     SalaryChart.employerPension item = Some er /\
     ep + er = SalaryChart.value item)
  \/
  (SalaryChart.type item <> "pension"%string /\
   SalaryChart.valueFill item = SalaryChart.color item /\
   SalaryChart.color item <> "transparent"%string /\
   SalaryChart.employeeFill item = "transparent"%string /\
   SalaryChart.employerFill item = "transparent"%string /\
   SalaryChart.employeePension item = None /\
   SalaryChart.employerPension item = None).
Proof.
  unfold SalaryChart.chartData. rewrite filter_In. intros [Hin _].
  cbn [SalaryChart.allBars] in Hin.
  destruct Hin as [<-|[<-|[<-|[<-|Hin]]]].
  - right. repeat split; discriminate.
  - right. cbn. destruct (Qle_bool 100000 _); repeat split; discriminate.
  - right. repeat split; discriminate.
  - left. unfold SalaryChart.valueFill, SalaryChart.employeeFill,
      SalaryChart.employerFill.
    cbn [SalaryChart.type SalaryChart.color SalaryChart.employeeColor
         SalaryChart.employerColor SalaryChart.employeePension
         SalaryChart.employerPension SalaryChart.value].
    destruct (Qgtb _ SalaryChart.PENSION_ALLOWANCE);
      (split; [reflexivity|]); (split; [reflexivity|]);
      (split; [discriminate|]); (split; [discriminate|]);
      eexists; eexists; repeat split.
  - right.
    repeat (destruct Hin as [<-|Hin]; [repeat split; discriminate|]).
    destruct Hin.
Qed.

Lemma entries_painted_once_witness :
  let data := chartProps (calculations State.initial) in
  let item := SalaryChart.bar "Tax" (SalaryChart.tax data) "tax" "#f59e0b" in
  In item (SalaryChart.chartData data) /\
  SalaryChart.valueFill item = SalaryChart.color item /\
  SalaryChart.employeeFill item = "transparent"%string.
Proof.
  intros data item.
  assert (Hin : In item (SalaryChart.chartData data)).
  { apply filter_In. split; [do 4 right; left; reflexivity|reflexivity]. }
  split; [exact Hin|].
  destruct (entries_painted_once State.initial item Hin)
    as [(Ht & _)|(_ & Hv & _ & He & _)]; [discriminate Ht|].
  split; [exact Hv|exact He].
Defined.
